(** * pytest-wdl: tolerant comparison of BAM files

    A shallow embedding of [pytest_wdl/data_types/bam.py].  The module
    converts two BAM files to SAM text with [pysam.view], normalises
    randomly assigned read-group names, sorts the records with the
    [sort] utility, projects columns with [cut -f] and hands the results
    to a bounded line diff.

    Python [str] values are embedded as [string]; a character is a code
    point below 256.  The local file system is a finite map from paths
    to file contents, threaded through a state-and-exception monad. *)

From Stdlib Require Import ZArith Ascii String List Lia Bool DecimalString.
From stdpp Require Import base gmap strings list.

Open Scope Z_scope.

(** ** Characters *)

Definition code (c : ascii) : N := N_of_ascii c.

Definition in_range (lo hi : N) (c : ascii) : bool :=
  (N.leb lo (code c)) && (N.leb (code c) hi).

Definition TAB : string := String "009" "".
Definition NL : string := String "010" "".

(** [str.isspace] on code points below 256. *)
Definition is_space (c : ascii) : bool :=
  in_range 9 13 c || in_range 28 32 c || N.eqb (code c) 133 || N.eqb (code c) 160.

(** The line boundaries of [str.splitlines] on code points below 256. *)
Definition is_linebreak (c : ascii) : bool :=
  in_range 10 13 c || in_range 28 30 c || N.eqb (code c) 133.

(** [\w] of the [re] module on a [str] pattern: [_] or [str.isalnum]. *)
Definition is_word (c : ascii) : bool :=
  in_range 48 57 c || in_range 65 90 c || in_range 97 122 c || N.eqb (code c) 95
  || N.eqb (code c) 170 || in_range 178 179 c || N.eqb (code c) 181
  || in_range 185 186 c || in_range 188 190 c
  || in_range 192 214 c || in_range 216 246 c || in_range 248 255 c.

(** The blanks of the [sort] utility in the C locale. *)
Definition is_blank (c : ascii) : bool :=
  N.eqb (code c) 9 || N.eqb (code c) 32.

Definition is_digit (c : ascii) : bool := in_range 48 57 c.

(** ** Strings *)

(** [str.join] with the empty separator. *)
Definition join (parts : list string) : string :=
  fold_right String.append "" parts.

(** [sep.join(parts)] *)
Fixpoint join_with (sep : string) (parts : list string) : string :=
  match parts with
  | [] => ""
  | [p] => p
  | p :: ps => p +:+ sep +:+ join_with sep ps
  end.

(** [line.startswith("@")] *)
Definition startswith_at (line : string) : bool :=
  match line with
  | String c _ => Ascii.eqb c "@"
  | EmptyString => false
  end.

(** [s.rstrip()] *)
Fixpoint rstrip (s : string) : string :=
  match s with
  | EmptyString => ""
  | String c r =>
      match rstrip r with
      | EmptyString => if is_space c then "" else String c ""
      | r' => String c r'
      end
  end.

Definition starts_with_lf (s : string) : bool :=
  match s with
  | String c _ => Ascii.eqb c "010"
  | EmptyString => false
  end.

(** [s.splitlines(keepends=True)]: every boundary of [is_linebreak] ends a
    line, a carriage return followed by a line feed counts as one
    boundary, and a last line without a boundary is kept. *)
Fixpoint splitlines (s : string) : list string :=
  match s with
  | EmptyString => []
  | String c r =>
      if is_linebreak c && negb (Ascii.eqb c "013" && starts_with_lf r)
      then String c "" :: splitlines r
      else match splitlines r with
           | [] => [String c ""]
           | ln :: lns => String c ln :: lns
           end
  end.

(** The lines of a text as the command line tools see them: separated by
    line feeds, without the separator. *)
Fixpoint unix_lines (s : string) : list string :=
  match s with
  | EmptyString => []
  | String c r =>
      if Ascii.eqb c "010" then "" :: unix_lines r
      else match unix_lines r with
           | [] => [String c ""]
           | ln :: lns => String c ln :: lns
           end
  end.

(** What a tool prints for a list of lines. *)
Definition unlines (ls : list string) : string :=
  join (map (fun l => l +:+ NL) ls).

(** The TAB separated fields of a line. *)
Fixpoint fields (s : string) : list string :=
  match s with
  | EmptyString => [""]
  | String c r =>
      if Ascii.eqb c "009" then "" :: fields r
      else match fields r with
           | [] => [String c ""]
           | f :: fs => String c f :: fs
           end
  end.

Fixpoint split_on (d : ascii) (s : string) : list string :=
  match s with
  | EmptyString => [""]
  | String c r =>
      if Ascii.eqb c d then "" :: split_on d r
      else match split_on d r with
           | [] => [String c ""]
           | f :: fs => String c f :: fs
           end
  end.

Fixpoint drop_while (p : ascii -> bool) (s : string) : string :=
  match s with
  | EmptyString => ""
  | String c r => if p c then drop_while p r else s
  end.

(** [s.lstrip()] *)
Definition lstrip (s : string) : string := drop_while is_space s.

(** [s.strip()] *)
Definition strip (s : string) : string := lstrip (rstrip s).



Fixpoint take_while (p : ascii -> bool) (s : string) : string :=
  match s with
  | EmptyString => ""
  | String c r => if p c then String c (take_while p r) else ""
  end.

Fixpoint str_take (n : nat) (s : string) : string :=
  match n, s with
  | S k, String c r => String c (str_take k r)
  | _, _ => ""
  end.

Fixpoint str_drop (n : nat) (s : string) : string :=
  match n, s with
  | S k, String _ r => str_drop k r
  | _, _ => s
  end.

Fixpoint strip_prefix (p s : string) : option string :=
  match p, s with
  | EmptyString, _ => Some s
  | String a p', String b s' => if Ascii.eqb a b then strip_prefix p' s' else None
  | String _ _, EmptyString => None
  end.

Fixpoint all_chars (p : ascii -> bool) (s : string) : bool :=
  match s with
  | EmptyString => true
  | String c r => p c && all_chars p r
  end.

(** A decimal numeral without sign. *)
Fixpoint digits_value (acc : N) (s : string) : N :=
  match s with
  | EmptyString => acc
  | String c r => digits_value (10 * acc + (code c - 48)) r
  end.

Definition parse_nat (s : string) : option N :=
  match s with
  | EmptyString => None
  | _ => if all_chars is_digit s then Some (digits_value 0 s) else None
  end.

(** ** Python values *)

Inductive pyval :=
| PyNone
| PyBool (b : bool)
| PyInt (z : Z)
| PyStr (s : string).

(** Truth value testing, as in [if x:] and [x or y]. *)
Definition truthy (v : pyval) : bool :=
  match v with
  | PyNone => false
  | PyBool b => b
  | PyInt z => negb (z =? 0)
  | PyStr s => negb (String.eqb s "")
  end.

(** [str(v)] *)
Definition py_str (v : pyval) : string :=
  match v with
  | PyNone => "None"
  | PyBool true => "True"
  | PyBool false => "False"
  | PyInt z => NilZero.string_of_int (Z.to_int z)
  | PyStr s => s
  end.

(** [a or b] *)
Definition py_or (a b : pyval) : pyval := if truthy a then a else b.

(** ** Exceptions and results *)

#[local] Set Warnings "-register-all".

Inductive exn :=
| AssertionError (msg : string) (cause : option exn)
| UnboundLocalError (var : string)
| TypeError (msg : string)
| ToolInvocationError (cmd : string).

Inductive result (A : Type) :=
| Ok (a : A)
| Raise (e : exn).
Arguments Ok {A} a.
Arguments Raise {A} e.

(** [b > a]; bool is a subclass of int, strings compare by code point,
    everything else is a [TypeError]. *)
Definition py_gt (b a : pyval) : result bool :=
  let as_int v := match v with
                  | PyInt z => Some z
                  | PyBool x => Some (if x then 1 else 0)
                  | _ => None
                  end in
  match as_int b, as_int a with
  | Some x, Some y => Ok (y <? x)
  | _, _ =>
      match b, a with
      | PyStr x, PyStr y => Ok (String.ltb y x)
      | _, _ => Raise (TypeError "'>' not supported")
      end
  end.

(** [max(a, b)]: the first argument unless the second is greater. *)
Definition py_max (a b : pyval) : result pyval :=
  match py_gt b a with
  | Ok true => Ok b
  | Ok false => Ok a
  | Raise e => Raise e
  end.

(** ** Normalisation of randomly assigned read groups *)

Fixpoint word_run (s : string) : nat :=
  match s with
  | EmptyString => 0%nat
  | String c r => if is_word c then S (word_run r) else 0%nat
  end.

(** Whether [s] starts with a word character. *)
Definition head_word (s : string) : bool :=
  match s with
  | String c _ => is_word c
  | EmptyString => false
  end.

(** The length of the match of [UNSET-\w*\b] anchored at the start of [s].
    The greedy [\w*] takes the whole run of word characters; the word
    boundary then holds exactly when that run is not empty, because the
    character before an empty run is the hyphen. *)
Definition match_unset (s : string) : option nat :=
  match strip_prefix "UNSET-" s with
  | Some r =>
      match word_run r with
      | O => None
      | S n => Some (6 + S n)%nat
      end
  | None => None
  end.

(** The left-to-right scan of [re.sub]: [skip] characters of a match
    found earlier are still to be passed over. *)
Fixpoint sub_scan (skip : nat) (s : string) : string :=
  match s with
  | EmptyString => ""
  | String c r =>
      match skip with
      | S k => sub_scan k r
      | O =>
          match match_unset s with
          | Some n => "UNSET-placeholder" +:+ sub_scan (n - 1) r
          | None => String c (sub_scan 0 r)
          end
      end
  end.

(** [re.sub(r"UNSET-\w*\b", "UNSET-placeholder", sam)] *)
Definition re_sub_unset (sam : string) : string := sub_scan 0 sam.

(** ** Paths *)

(** A path is either one the caller names or a file inside the [dir]-th
    directory made by [tempdir]; a directory made by [tempdir] is new, so
    no path of the caller lies in it. *)
Inductive Path :=
| UserPath (s : string)
| TempPath (dir : nat) (name : string).

#[global] Instance Path_eq_dec : EqDecision Path.
Proof. solve_decision. Defined.

#[global] Instance Path_countable : Countable Path.
Proof.
  refine (inj_countable'
            (fun p => match p with
                      | UserPath s => inl s
                      | TempPath d n => inr (d, n)
                      end)
            (fun x => match x with
                      | inl s => UserPath s
                      | inr (d, n) => TempPath d n
                      end) _).
  by intros [].
Defined.

(** [str(path)] *)
Definition path_str (p : Path) : string :=
  match p with
  | UserPath s => s
  | TempPath d n =>
      "/tmp/tmp" +:+ NilZero.string_of_uint (Nat.to_uint d) +:+ "/" +:+ n
  end.

Definition last_component (s : string) : string :=
  List.last (split_on "/" s) "".

(** [path.stem]: the final component without its last suffix. *)
Definition stem (p : Path) : string :=
  let name := match p with
              | UserPath s => last_component s
              | TempPath _ n => last_component n
              end in
  let parts := split_on "." name in
  let i := String.length (join_with "." (removelast parts)) in
  if (Nat.ltb 0 i) && (Nat.ltb i (String.length name - 1)) && (Nat.ltb 1 (List.length parts))
  then str_take i name else name.

(** ** The file system and the monad of the module *)

Record state := mkState {
  fs : gmap Path string;   (* the files and their contents *)
  next_tmp : nat           (* the number of the next directory of tempdir *)
}.

Definition M (A : Type) : Type := state -> result A * state.

Definition ret {A} (a : A) : M A := fun st => (Ok a, st).

Definition raise {A} (e : exn) : M A := fun st => (Raise e, st).

Definition bind {A B} (m : M A) (k : A -> M B) : M B :=
  fun st =>
    match m st with
    | (Ok a, st') => k a st'
    | (Raise e, st') => (Raise e, st')
    end.

Notation "x <- m ;; k" := (bind m (fun x => k))
  (at level 100, m at next level, right associativity).
Notation "m ;;; k" := (bind m (fun _ => k))
  (at level 100, right associativity).

(** [try: m  except AssertionError as err: handler err] *)
Definition try_except_AssertionError {A} (m : M A) (handler : exn -> M A) : M A :=
  fun st =>
    match m st with
    | (Raise (AssertionError msg cause), st') =>
        handler (AssertionError msg cause) st'
    | other => other
    end.

Definition lift {A} (r : result A) : M A := fun st => (r, st).

(** [with tempdir(cleanup=False) as temp]: a new directory, never removed. *)
Definition tempdir : M nat :=
  fun st => (Ok (next_tmp st), mkState (fs st) (S (next_tmp st))).

(** Opening a file for writing and writing [text] to it.  The contents of
    a file are the text written through the handle: [open_] of [xphyle]
    compresses it on the way to the disk when the name of the file asks
    for that, which none of the names the module makes does. *)
Definition write_file (p : Path) (text : string) : M unit :=
  fun st => (Ok tt, mkState (<[p := text]> (fs st)) (next_tmp st)).

(** What a tool that is given the path [p] reads; a missing file makes the
    tool fail. *)
Definition tool_read (cmd : string) (p : Path) : M string :=
  fun st =>
    match fs st !! p with
    | Some text => (Ok text, st)
    | None => (Raise (ToolInvocationError cmd), st)
    end.

Definition tool_result (cmd : string) (out : option string) : M string :=
  match out with
  | Some text => ret text
  | None => raise (ToolInvocationError cmd)
  end.

(** The files as a command finds them. *)
Definition get_files : M (gmap Path string) := fun st => (Ok (fs st), st).

(** ** Command lines

    The module hands [subby] a command line as one string into which it has
    pasted a path or a column list without quoting it.  [subby] splits the
    string into words the way a shell does.  What was pasted reaches the
    tool as it is when it is one plain word: not empty and made of letters,
    digits and the characters [_ . / , -] only.  Anything else (a blank, a
    quote, a backslash, a bar) may be split or changed on the way. *)
Definition is_plain (c : ascii) : bool :=
  in_range 48 57 c || in_range 65 90 c || in_range 97 122 c
  || N.eqb (code c) 95 || in_range 44 47 c.

Definition plain_word (s : string) : bool :=
  match s with
  | EmptyString => false
  | String _ _ => all_chars is_plain s
  end.

(** A plain word that a tool takes for the name of a file: one that starts
    with a hyphen is an option. *)
Definition file_word (s : string) : bool :=
  match s with
  | String c _ => negb (Ascii.eqb c "-") && plain_word s
  | EmptyString => false
  end.

(** ** The external tools

    [pysam.view] decodes a BAM file and the [sort] utility orders lines by
    the collation of the locale; the module treats both as black boxes, and
    so does the embedding.  [pysam_view opts bam] is the text printed for
    the file contents [bam], [unix_sort keys text] is the standard output of
    [sort keys] on the standard input [text]; [None] is a failed run.

    [subby_run cmd files] is the standard output, on the files [files], of a
    command line [cmd] into which something other than a plain word was
    pasted: what such a command line runs is not modelled.  No command of
    the module writes a file, so its standard output and whether it failed
    is all there is to know. *)
Class Tools := {
  pysam_view : list string -> string -> option string;
  unix_sort : string -> string -> option string;
  subby_run : string -> gmap Path string -> option string
}.

(** ** Column selection: [cut -f LIST]

    The delimiter of [cut -f] is the TAB character.  A line without a TAB
    is printed whole; of any other line the fields whose 1-based number
    lies in one of the ranges of LIST are printed in the order of the line,
    joined by TAB.  Every printed line ends with a line feed. *)

(** The largest value of the type in which [cut] counts fields. *)
Definition UINTMAX_MAX : N := 18446744073709551615.

(** A field number: a decimal numeral from 1 to [UINTMAX_MAX - 1].  Fields
    are numbered from 1, and [cut] rejects a number that reaches
    [UINTMAX_MAX] as too large. *)
Definition parse_field (s : string) : option N :=
  match parse_nat s with
  | Some k => if N.ltb 0 k && N.ltb k UINTMAX_MAX then Some k else None
  | None => None
  end.

(** [N], [N-M], [N-] or [-M], with [N <= M]. *)
Definition parse_range (item : string) : option (N * option N) :=
  match split_on "-" item with
  | [n] =>
      match parse_field n with
      | Some k => Some (k, Some k)
      | None => None
      end
  | [lo; hi] =>
      match String.eqb lo "", String.eqb hi "" with
      | true, true => None
      | true, false =>
          match parse_field hi with
          | Some m => Some (1%N, Some m)
          | None => None
          end
      | false, true =>
          match parse_field lo with
          | Some n => Some (n, None)
          | None => None
          end
      | false, false =>
          match parse_field lo, parse_field hi with
          | Some n, Some m => if N.leb n m then Some (n, Some m) else None
          | _, _ => None
          end
      end
  | _ => None
  end.

Fixpoint parse_ranges (items : list string) : option (list (N * option N)) :=
  match items with
  | [] => Some []
  | item :: rest =>
      match parse_range item, parse_ranges rest with
      | Some r, Some rs => Some (r :: rs)
      | _, _ => None
      end
  end.

Definition in_ranges (ranges : list (N * option N)) (i : N) : bool :=
  existsb (fun r => N.leb (fst r) i &&
                    match snd r with
                    | Some hi => N.leb i hi
                    | None => true
                    end) ranges.

(** The fields of [fs], numbered from [i], that the ranges select. *)
Fixpoint select_fields (ranges : list (N * option N)) (i : N) (fs : list string)
  : list string :=
  match fs with
  | [] => []
  | f :: rest =>
      if in_ranges ranges i then f :: select_fields ranges (N.succ i) rest
      else select_fields ranges (N.succ i) rest
  end.

Definition cut_line (ranges : list (N * option N)) (line : string) : string :=
  match fields line with
  | [_] => line
  | fs => join_with TAB (select_fields ranges 1 fs)
  end.

Definition cut_f (columns : string) (text : string) : option string :=
  match parse_ranges (split_on "," columns) with
  | Some ranges => Some (unlines (map (cut_line ranges) (unix_lines text)))
  | None => None
  end.

(** ** The bounded line diff of [pytest_wdl.data_types] *)

(** The number of lines that differ, the lines of the two texts compared
    pairwise at the same index; a line without a partner differs. *)
Fixpoint diff_count (l1 l2 : list string) : nat :=
  match l1, l2 with
  | [], _ => List.length l2
  | _, [] => List.length l1
  | a :: r1, b :: r2 =>
      ((if String.eqb a b then 0 else 1) + diff_count r1 r2)%nat
  end.

Definition diff_lines (text1 text2 : string) : Z :=
  Z.of_nat (diff_count (unix_lines text1) (unix_lines text2)).

(** Modelled from the spec: [diff_default] of [pytest_wdl/data_types], the
    "compare whole line" function of the bounded line diff.  It counts the
    lines that differ between the two files, the same line index compared
    pairwise. *)
Definition diff_default (file1 file2 : Path) : M Z :=
  text1 <- tool_read "diff" file1 ;;
  text2 <- tool_read "diff" file2 ;;
  ret (diff_lines text1 text2).

Definition diff_message (n : Z) : string :=
  NilZero.string_of_int (Z.to_int n) +:+ " lines were different".

(** Modelled from the spec: [assert_text_files_equal] of
    [pytest_wdl/data_types], the bounded line diff.  It takes two text
    files, a tolerance and a line-comparison function, computes the count
    of differing lines with that function and raises a failure if the
    count exceeds the tolerance.  The text of the failure is not fixed by
    the spec; here it gives the count. *)
Definition assert_text_files_equal (file1 file2 : Path) (allowed_diff_lines : Z)
    (diff_fn : Path -> Path -> M Z) : M unit :=
  diff_lines <- diff_fn file1 file2 ;;
  if allowed_diff_lines <? diff_lines
  then raise (AssertionError (diff_message diff_lines) None)
  else ret tt.

(** ** [bam.py] *)

Definition INVARIATE_COLUMNS : string := "1,2,5,10,11".
Definition ALL_COLUMNS : string := "1-11".

Inductive Sorting :=
| NONE
| COORDINATE
| NAME.

(** The loop that looks for the first line that is not a header:
    [start] keeps its initial value when no line leaves the loop. *)
Fixpoint header_scan (start i : nat) (lines : list string) : nat :=
  match lines with
  | [] => start
  | line :: rest =>
      if negb (startswith_at line) then i
      else header_scan start (S i) rest
  end.

Definition view_opts (headers : bool) (min_mapq : pyval) : list string :=
  (if headers then ["-h"] else []) ++
  (if truthy min_mapq then ["-q"; py_str min_mapq] else []).

Definition sort_cols (sorting : Sorting) : string :=
  match sorting with
  | COORDINATE => "-k3,3 -k4,4n -k2,2n"
  | _ => "-k1,1 -k2,2n"
  end.

Section Bam.
Context `{Tools}.

(** The command line [cat PATH | TOOL ARGS] run by [subby], and its
    standard output.  [run] is what [TOOL ARGS] prints for its standard
    input; [plain] tells whether the words of [args] are the ones the
    module means.  A missing file makes [cat] fail. *)
Definition cat_pipe (path : Path) (tool args : string) (plain : bool)
    (run : string -> option string) : M string :=
  if file_word (path_str path) && plain
  then text <- tool_read "cat" path ;;
       tool_result tool (run text)
  else files <- get_files ;;
       tool_result tool
         (subby_run ("cat " +:+ path_str path +:+ " | " +:+ tool +:+ " " +:+ args)
            files).

(** The local variable [lines] is bound only in the branch that sorts:
    [None] stands for the unbound variable.  [subby.sub] returns the
    standard output of the command with the white space at both ends
    removed. *)
Definition bam_to_sam (input_bam output_sam : Path) (headers : bool)
    (min_mapq : pyval) (sorting : Sorting) : M unit :=
  let opts := view_opts headers min_mapq in
  bam <- tool_read "pysam.view" input_bam ;;
  out <- tool_result "pysam.view" (pysam_view opts bam) ;;
  let sam := rstrip out in
  let sam := re_sub_unset sam in
  lines <- match sorting with
           | NONE => ret None
           | _ =>
               let lines := splitlines sam in
               let start := if headers then header_scan 0 0 lines else 0%nat in
               temp <- tempdir ;;
               let temp_sam :=
                 TempPath temp ("output_" +:+ stem output_sam +:+ ".sam") in
               write_file temp_sam (join (drop start lines)) ;;;
               out <- cat_pipe temp_sam "sort" (sort_cols sorting) true
                        (unix_sort (sort_cols sorting)) ;;
               let sorted_sam := strip out in
               ret (Some (take start lines ++ [sorted_sam]))
           end ;;
  (* with open_(output_sam, "w") as out: *)
  write_file output_sam "" ;;;
  (* out.write of the joined lines *)
  match lines with
  | None => raise (UnboundLocalError "lines")
  | Some lines => write_file output_sam (join lines)
  end.

Definition make_comparable (columns : string) (inpath output : Path) : M unit :=
  out <- cat_pipe inpath "cut" ("-f " +:+ columns) (plain_word columns)
           (cut_f columns) ;;
  write_file output out.

Definition diff_bam_columns (file1 file2 : Path) (columns : string) : M Z :=
  temp <- tempdir ;;
  let cmp_file1 := TempPath temp "cmp_file1" in
  let cmp_file2 := TempPath temp "cmp_file2" in
  make_comparable columns file1 cmp_file1 ;;;
  make_comparable columns file2 cmp_file2 ;;;
  diff_default cmp_file1 cmp_file2.

Definition assert_bam_files_equal (file1 file2 : Path) (allowed_diff_lines : Z)
    (min_mapq compare_tag_columns : pyval) : M unit :=
  temp <- tempdir ;;
  (* Compare all reads using subset of columns *)
  let cmp_file1 := TempPath temp "all_reads_subset_columns_file1" in
  let cmp_file2 := TempPath temp "all_reads_subset_columns_file2" in
  bam_to_sam file1 cmp_file1 false PyNone NAME ;;;
  bam_to_sam file2 cmp_file2 false PyNone NAME ;;;
  assert_text_files_equal cmp_file1 cmp_file2 allowed_diff_lines
    (fun f1 f2 => diff_bam_columns f1 f2 INVARIATE_COLUMNS) ;;;
  (* Compare subset of reads using all columns *)
  let cmp_file1 := TempPath temp "subset_reads_all_columns_file1" in
  let cmp_file2 := TempPath temp "subset_reads_all_columns_file2" in
  bam_to_sam file1 cmp_file1 true min_mapq COORDINATE ;;;
  bam_to_sam file2 cmp_file2 true min_mapq COORDINATE ;;;
  let diff_fn :=
    if truthy compare_tag_columns then diff_default
    else fun f1 f2 => diff_bam_columns f1 f2 ALL_COLUMNS in
  assert_text_files_equal cmp_file1 cmp_file2 allowed_diff_lines diff_fn.

(** *** [class BamDataFile(DataFile)] *)

Record BamDataFile := {
  path : Path;
  compare_opts : gmap string pyval
}.

(** [d.get(key, default)] on a [dict] with string keys. *)
Definition dict_get (d : gmap string pyval) (key : string) (dflt : pyval) : pyval :=
  default dflt (d !! key).

Definition _get_min_mapq (self : BamDataFile) (other_opts : gmap string pyval)
  : result pyval :=
  py_max (dict_get (compare_opts self) "min_mapq" (PyInt 0))
         (dict_get other_opts "min_mapq" (PyInt 0)).

Definition _get_compare_tag_columns (self : BamDataFile)
    (other_opts : gmap string pyval) : pyval :=
  py_or (dict_get (compare_opts self) "compare_tag_columns" PyNone)
        (dict_get other_opts "compare_tag_columns" PyNone).

(** The method [_get_allowed_diff_lines] is inherited from [DataFile],
    which is not among the sources of the module: it is a parameter. *)
Variable _get_allowed_diff_lines : BamDataFile -> gmap string pyval -> Z.

Definition _assert_contents_equal (self : BamDataFile) (other_path : Path)
    (other_opts : gmap string pyval) : M unit :=
  try_except_AssertionError
    (let allowed_diff_lines := _get_allowed_diff_lines self other_opts in
     min_mapq <- lift (_get_min_mapq self other_opts) ;;
     let compare_tag_columns := _get_compare_tag_columns self other_opts in
     assert_bam_files_equal (path self) other_path allowed_diff_lines
       min_mapq compare_tag_columns)
    (fun err =>
       raise (AssertionError
                ("BAM files are not equal: " +:+ path_str (path self) +:+
                 " != " +:+ path_str other_path)
                (Some err))).

End Bam.

(** ** Reference tools

    Executable models of the two black boxes, used to run the module on
    concrete files: [sort] in the C locale and [samtools view] on an
    alignment file given as SAM text (which [samtools] reads as well as
    BAM). *)

Module Reference.

(** One [-kF,G] or [-kF,Gn] argument. *)
Record sort_key := {
  key_first : nat;
  key_last : nat;
  key_numeric : bool
}.

(** A field is a run of blanks followed by a run of non-blanks. *)
Definition skip_field (s : string) : string :=
  drop_while (fun c => negb (is_blank c)) (drop_while is_blank s).

(** The text from the start of field F to the end of field G, leading
    blanks included. *)
Definition key_text (k : sort_key) (line : string) : string :=
  let b := Nat.iter (key_first k - 1) skip_field line in
  let e := Nat.iter (key_last k) skip_field line in
  str_take (String.length b - String.length e) b.

(** The number at the start of a key, as [mantissa / 10 ^ scale]: blanks,
    an optional minus sign, digits, an optional fraction.  Anything else
    counts as zero. *)
Definition numeric_value (s : string) : Z * nat :=
  let s := drop_while is_blank s in
  let neg := match s with String "-" _ => true | _ => false end in
  let s := match s with String "-" r => r | _ => s end in
  let ip := take_while is_digit s in
  let fp := match drop_while is_digit s with
            | String "." r => take_while is_digit r
            | _ => ""
            end in
  let m := Z.of_N (digits_value 0 (ip +:+ fp)) in
  (if neg then - m else m, String.length fp).

Definition numeric_compare (a b : string) : comparison :=
  let '(m1, k1) := numeric_value a in
  let '(m2, k2) := numeric_value b in
  Z.compare (m1 * 10 ^ Z.of_nat k2) (m2 * 10 ^ Z.of_nat k1).

Definition key_compare (k : sort_key) (a b : string) : comparison :=
  if key_numeric k then numeric_compare (key_text k a) (key_text k b)
  else String.compare (key_text k a) (key_text k b).

(** The keys in turn, then the whole lines byte by byte. *)
Fixpoint line_compare (keys : list sort_key) (a b : string) : comparison :=
  match keys with
  | [] => String.compare a b
  | k :: ks =>
      match key_compare k a b with
      | Eq => line_compare ks a b
      | c => c
      end
  end.

Definition line_le (keys : list sort_key) (a b : string) : bool :=
  match line_compare keys a b with
  | Gt => false
  | _ => true
  end.

Fixpoint insert_line (keys : list sort_key) (x : string) (l : list string)
  : list string :=
  match l with
  | [] => [x]
  | y :: r => if line_le keys x y then x :: l else y :: insert_line keys x r
  end.

Definition sort_lines (keys : list sort_key) (l : list string) : list string :=
  fold_right (insert_line keys) [] l.

Definition parse_key (arg : string) : option sort_key :=
  match strip_prefix "-k" arg with
  | Some pos =>
      match split_on "," pos with
      | [f; g] =>
          match parse_nat f, parse_nat (take_while is_digit g),
                drop_while is_digit g with
          | Some f', Some g', EmptyString =>
              Some {| key_first := N.to_nat f'; key_last := N.to_nat g';
                      key_numeric := false |}
          | Some f', Some g', String "n" EmptyString =>
              Some {| key_first := N.to_nat f'; key_last := N.to_nat g';
                      key_numeric := true |}
          | _, _, _ => None
          end
      | _ => None
      end
  | None => None
  end.

Fixpoint parse_keys (args : list string) : option (list sort_key) :=
  match args with
  | [] => Some []
  | a :: rest =>
      match parse_key a, parse_keys rest with
      | Some k, Some ks => Some (k :: ks)
      | _, _ => None
      end
  end.

(** [sort ARGS] in the C locale. *)
Definition gnu_sort (args : string) (text : string) : option string :=
  match parse_keys (split_on " " args) with
  | Some keys => Some (unlines (sort_lines keys (unix_lines text)))
  | None => None
  end.

(** The MAPQ of an alignment record, its fifth field. *)
Definition mapq_of (record : string) : option N :=
  match fields record with
  | _ :: _ :: _ :: _ :: q :: _ :: _ :: _ :: _ :: _ :: _ :: _ => parse_nat q
  | _ => None
  end.

(** The options the module passes: [-h] and [-q INT]. *)
Fixpoint parse_view_opts (opts : list string) : option (bool * N) :=
  match opts with
  | [] => Some (false, 0%N)
  | o :: rest =>
      if String.eqb o "-h" then
        match parse_view_opts rest with
        | Some (_, q) => Some (true, q)
        | None => None
        end
      else if String.eqb o "-q" then
        match rest with
        | v :: rest' =>
            match parse_nat v, parse_view_opts rest' with
            | Some q, Some (h, _) => Some (h, q)
            | _, _ => None
            end
        | [] => None
        end
      else None
  end.

Definition has_mapq (q : N) (record : string) : bool :=
  match mapq_of record with
  | Some m => N.leb q m
  | None => false
  end.

(** [samtools view OPTS FILE]: the header lines when [-h] is given, then
    the records whose MAPQ is at least the value of [-q].  A record with
    fewer than eleven fields or without a number for MAPQ is an error. *)
Definition samtools_view (opts : list string) (bam : string) : option string :=
  match parse_view_opts opts with
  | Some (h, q) =>
      let ls := unix_lines bam in
      let hdr := List.filter startswith_at ls in
      let recs := List.filter (fun l => negb (startswith_at l)) ls in
      if forallb (fun r => match mapq_of r with Some _ => true | None => false end) recs
      then Some (unlines ((if h then hdr else []) ++ List.filter (has_mapq q) recs))
      else None
  | None => None
  end.

(** The reference tools run the command lines of plain words only. *)
#[export] Instance tools : Tools := {|
  pysam_view := samtools_view;
  unix_sort := gnu_sort;
  subby_run := fun _ _ => None
|}.

End Reference.

(** ** The two-pass policy on texts

    The comparison as the specification words it, on the contents of the
    two files instead of the file system: two passes, each a conversion of
    both files, a projection of columns and a bounded diff. *)

Definition rbind {A B} (r : result A) (k : A -> result B) : result B :=
  match r with
  | Ok a => k a
  | Raise e => Raise e
  end.

Definition of_tool (cmd : string) (out : option string) : result string :=
  match out with
  | Some text => Ok text
  | None => Raise (ToolInvocationError cmd)
  end.

Section TwoPass.
Context `{Tools}.

(** The header block ends at the first line that is not a header. *)
Definition header_end (headers : bool) (lines : list string) : nat :=
  if headers then header_scan 0 0 lines else 0%nat.

(** What [bam_to_sam] computes from the contents [bam] of its input when
    the name of its temporary file is a plain word: the text it writes to
    its output, or the exception it raises. *)
Definition convert (headers : bool) (min_mapq : pyval) (sorting : Sorting)
    (bam : string) : result string :=
  rbind (of_tool "pysam.view" (pysam_view (view_opts headers min_mapq) bam))
    (fun out =>
       let lines := splitlines (re_sub_unset (rstrip out)) in
       let start := header_end headers lines in
       match sorting with
       | NONE => Raise (UnboundLocalError "lines")
       | _ =>
           rbind (of_tool "sort"
                    (unix_sort (sort_cols sorting) (join (drop start lines))))
             (fun out => Ok (join (take start lines ++ [strip out])))
       end).

Definition project_columns (columns : string) (text : string) : result string :=
  of_tool "cut" (cut_f columns text).

(** Fail if the count of differing lines exceeds the tolerance. *)
Definition within (allowed_diff_lines : Z) (count : Z) : result unit :=
  if allowed_diff_lines <? count
  then Raise (AssertionError (diff_message count) None)
  else Ok tt.

(** The count of differing lines between the projections of two texts. *)
Definition projected_count (columns : string) (text1 text2 : string) : result Z :=
  rbind (project_columns columns text1) (fun p1 =>
  rbind (project_columns columns text2) (fun p2 =>
  Ok (diff_lines p1 p2))).

(** Pass 1: all reads, sorted by name, the invariant subset of the
    columns. *)
Definition invariant_subset_count (bam1 bam2 : string) : result Z :=
  rbind (convert false PyNone NAME bam1) (fun sam1 =>
  rbind (convert false PyNone NAME bam2) (fun sam2 =>
  projected_count INVARIATE_COLUMNS sam1 sam2)).

(** Pass 2: the reads of sufficient quality with the headers, sorted by
    coordinate, columns 1-11 or the raw text. *)
Definition full_columns_count (bam1 bam2 : string) (min_mapq : pyval)
    (compare_tag_columns : bool) : result Z :=
  rbind (convert true min_mapq COORDINATE bam1) (fun sam1 =>
  rbind (convert true min_mapq COORDINATE bam2) (fun sam2 =>
  if compare_tag_columns then Ok (diff_lines sam1 sam2)
  else projected_count ALL_COLUMNS sam1 sam2)).

Definition invariant_subset_pass (bam1 bam2 : string) (allowed_diff_lines : Z)
  : result unit :=
  rbind (invariant_subset_count bam1 bam2) (within allowed_diff_lines).

Definition full_columns_pass (bam1 bam2 : string) (allowed_diff_lines : Z)
    (min_mapq : pyval) (compare_tag_columns : bool) : result unit :=
  rbind (full_columns_count bam1 bam2 min_mapq compare_tag_columns)
        (within allowed_diff_lines).

(** Both passes must pass; the second is run when the first has passed. *)
Definition two_pass (bam1 bam2 : string) (allowed_diff_lines : Z)
    (min_mapq : pyval) (compare_tag_columns : bool) : result unit :=
  rbind (invariant_subset_pass bam1 bam2 allowed_diff_lines) (fun _ =>
  full_columns_pass bam1 bam2 allowed_diff_lines min_mapq compare_tag_columns).

End TwoPass.

(** The paths that exist before the [n]-th directory of [tempdir]. *)
Definition before (n : nat) (p : Path) : Prop :=
  match p with
  | UserPath _ => True
  | TempPath d _ => (d < n)%nat
  end.

(** A path that exists before the directories [st] has yet to make. *)
Definition old (st : state) (p : Path) : Prop := before (next_tmp st) p.

(** [m] run from [st] gives the result [r], and a state in [Q] when the
    result is a value. *)
Definition yields {A} (m : M A) (st : state) (r : result A) (Q : state -> Prop) : Prop :=
  exists st', m st = (r, st') /\ match r with Ok _ => Q st' | Raise _ => True end.

(** ** What a side of a comparison requests *)

(** The integer a side requests under [key], 0 when the key is absent. *)
Definition requested_int (opts : gmap string pyval) (key : string) : Z :=
  match opts !! key with
  | Some (PyInt z) => z
  | _ => 0
  end.

(** The key is absent or holds an integer. *)
Definition int_or_absent (opts : gmap string pyval) (key : string) : Prop :=
  match opts !! key with
  | None | Some (PyInt _) => True
  | Some _ => False
  end.

(** Whether a side requests the flag [key]: the key holds a true value. *)
Definition requested_flag (opts : gmap string pyval) (key : string) : bool :=
  match opts !! key with
  | Some v => truthy v
  | None => false
  end.

(** ** Texts that differ in tag columns only *)

(** Two lines with the same columns 1-11. *)
Definition same_columns (a b : string) : bool :=
  bool_decide (take 11 (fields a) = take 11 (fields b)).

Fixpoint lines_agree (l1 l2 : list string) : bool :=
  match l1, l2 with
  | [], [] => true
  | a :: r1, b :: r2 => same_columns a b && lines_agree r1 r2
  | _, _ => false
  end.

(** Two texts with as many lines, the lines at the same index identical
    except in the fields from the twelfth on. *)
Definition tag_only_difference (text1 text2 : string) : bool :=
  lines_agree (unix_lines text1) (unix_lines text2).

(** A line holds no line feed. *)
Definition no_nl (s : string) : Prop :=
  all_chars (fun c => negb (Ascii.eqb c "010")) s = true.

(** No range reaches beyond column 11. *)
Definition bounded (ranges : list (N * option N)) : Prop :=
  forall i, (11 < i)%N -> in_ranges ranges i = false.

(** What the caller sees of a verdict of the two-pass policy. *)
Definition surfaced (self : BamDataFile) (other_path : Path) (verdict : result unit)
  : result unit :=
  match verdict with
  | Raise (AssertionError msg cause) =>
      Raise (AssertionError
               ("BAM files are not equal: " +:+ path_str (path self) +:+
                " != " +:+ path_str other_path)
               (Some (AssertionError msg cause)))
  | other => other
  end.

(** ** Example files *)

Module Examples.

Definition row (fs : list string) : string := join_with TAB fs.

Definition hd_line : string := row ["@HD"; "VN:1.6"; "SO:coordinate"].
Definition sq_line : string := row ["@SQ"; "SN:chr1"; "LN:1000"].

Definition read (name pos mapq seq tag : string) : string :=
  row [name; "0"; "chr1"; pos; mapq; "4M"; "*"; "0"; "0"; seq; "FFFF"; tag].

(** Two files: read r1 has a low MAPQ and differs in its sequence, read
    r2 differs in its position. *)
Definition bam_a : string :=
  unlines [hd_line; sq_line;
           read "r1" "100" "5" "ACGT" "NM:i:0";
           read "r2" "200" "30" "ACGT" "NM:i:0";
           read "r3" "300" "30" "ACGT" "NM:i:0"].

Definition bam_b : string :=
  unlines [hd_line; sq_line;
           read "r1" "100" "5" "ACGA" "NM:i:0";
           read "r2" "201" "30" "ACGT" "NM:i:0";
           read "r3" "300" "30" "ACGT" "NM:i:0"].

(** Two files that differ in the tag of read r1 only. *)
Definition bam_tag1 : string :=
  unlines [hd_line; sq_line;
           read "r1" "100" "30" "ACGT" "NM:i:0";
           read "r2" "200" "30" "ACGT" "NM:i:0"].

Definition bam_tag2 : string :=
  unlines [hd_line; sq_line;
           read "r1" "100" "30" "ACGT" "NM:i:1";
           read "r2" "200" "30" "ACGT" "NM:i:0"].

(** Two files with the same two reads, equal in columns 1-11, whose tags
    are exchanged. *)
Definition bam_swap1 : string :=
  unlines [hd_line; sq_line;
           read "r1" "100" "30" "ACGT" "XT:i:1";
           read "r1" "100" "30" "ACGT" "XT:i:2"].

Definition bam_swap2 : string :=
  unlines [hd_line; sq_line;
           read "r1" "100" "30" "ACGT" "XT:i:2";
           read "r1" "100" "30" "ACGT" "XT:i:1"].

(** Two files that differ in the suffix of a randomly assigned read
    group only. *)
Definition bam_group1 : string :=
  unlines [hd_line; sq_line; read "r1" "100" "30" "ACGT" "RG:Z:UNSET-4f1c"].

Definition bam_group2 : string :=
  unlines [hd_line; sq_line; read "r1" "100" "30" "ACGT" "RG:Z:UNSET-9e07"].

(** A file with a header and no reads. *)
Definition bam_header_only : string := unlines [hd_line; sq_line].

Definition six_columns : string := row ["a"; "b"; "c"; "d"; "e"; "f"].

Definition files : state :=
  {| fs := list_to_map
             [(UserPath "a.bam", bam_a); (UserPath "b.bam", bam_b);
              (UserPath "tag1.bam", bam_tag1); (UserPath "tag2.bam", bam_tag2);
              (UserPath "swap1.bam", bam_swap1); (UserPath "swap2.bam", bam_swap2);
              (UserPath "group1.bam", bam_group1); (UserPath "group2.bam", bam_group2);
              (UserPath "header.bam", bam_header_only);
              (UserPath "six.tsv", six_columns);
              (UserPath "spaces.txt", "a b c d e f")];
     next_tmp := 0 |}.

(** Side A requests [min_mapq=10] and no tag columns, side B requests
    [min_mapq=20] and tag columns. *)
Definition side_A : BamDataFile :=
  {| path := UserPath "a.bam";
     compare_opts := {[ "min_mapq" := PyInt 10 ]} |}.

Definition opts_B : gmap string pyval :=
  <[ "compare_tag_columns" := PyBool true ]> {[ "min_mapq" := PyInt 20 ]}.

(** The tolerance used to run [_assert_contents_equal] on the examples:
    the maximum of the values the two sides request. *)
Definition max_allowed_diff_lines (self : BamDataFile) (other_opts : gmap string pyval) : Z :=
  Z.max (requested_int (compare_opts self) "allowed_diff_lines")
        (requested_int other_opts "allowed_diff_lines").

End Examples.

(** ** Where a computation writes *)

(** [m], run when the next directory of [tempdir] is [lo] or a later one,
    makes directories only, changes no file in [P] that exists before the
    directory [lo], and returns values in [V]. *)
Definition confined {A} (P : Path -> Prop) (lo : nat) (V : A -> Prop) (m : M A) : Prop :=
  forall st, (lo <= next_tmp st)%nat ->
    (next_tmp st <= next_tmp (snd (m st)))%nat
    /\ (forall p, P p -> before lo p -> fs (snd (m st)) !! p = fs st !! p)
    /\ (forall a, fst (m st) = Ok a -> V a).

(** ** Texts without a character or a word *)

(** The character [d] does not occur in [s]. *)
Definition free (d : ascii) (s : string) : Prop :=
  all_chars (fun c => negb (Ascii.eqb c d)) s = true.

(** [sub in s] *)
Fixpoint str_contains (sub s : string) : bool :=
  match strip_prefix sub s with
  | Some _ => true
  | None =>
      match s with
      | EmptyString => false
      | String _ r => str_contains sub r
      end
  end.

(** Every line has at most eleven fields: there are no tag columns. *)
Definition without_tags (text : string) : bool :=
  forallb (fun l => Nat.leb (List.length (fields l)) 11) (unix_lines text).

(** A separator: neither a word character nor the hyphen. *)
Definition separates (d : ascii) : Prop := is_word d = false /\ d <> "-"%char.

(** ** Selecting fields by their number *)

(** The fields of a line with their numbers, counted from 1. *)
Definition numbered (fs : list string) : list (N * string) :=
  combine (map (fun k => N.of_nat (S k)) (seq 0 (List.length fs))) fs.

(** The column projector in the words of the specification: only the
    fields whose number is selected, in the order of the line. *)
Definition matching_fields (selected : N -> bool) (fs : list string) : list string :=
  map snd (List.filter (fun nf => selected (fst nf)) (numbered fs)).

(** ** [setup.py] *)

Module Setup.

(** A [dict] with string keys in insertion order. *)
Fixpoint dict_lookup {V} (d : list (string * V)) (key : string) : option V :=
  match d with
  | [] => None
  | (k, v) :: rest => if String.eqb k key then Some v else dict_lookup rest key
  end.

(** [d[key] = v]: the value of an existing key is replaced in place, a
    new key goes to the end. *)
Fixpoint dict_set {V} (d : list (string * V)) (key : string) (v : V)
  : list (string * V) :=
  match d with
  | [] => [(key, v)]
  | (k, w) :: rest =>
      if String.eqb k key then (k, v) :: rest else (k, w) :: dict_set rest key v
  end.

(** [[lib for lib_array in d.values() for lib in lib_array]] *)
Definition all_values (d : list (string * list string)) : list string :=
  flat_map snd d.

(** The statement [extras_require["all"] = [...]] on a [dict]. *)
Definition add_all (d : list (string * list string)) : list (string * list string) :=
  dict_set d "all" (all_values d).

Definition extras_require : list (string * list string) :=
  add_all [("bam", ["pysam"]); ("miniwdl", ["miniwdl"]); ("progress", ["tqdm"])].

End Setup.

(** ** More example files *)

Module Examples2.

(** Two files without tag columns that differ in the position of a read. *)
Definition bam_plain1 : string :=
  unlines [Examples.hd_line; Examples.sq_line;
           Examples.row ["r1"; "0"; "chr1"; "100"; "30"; "4M"; "*"; "0"; "0"; "ACGT"; "FFFF"];
           Examples.row ["r2"; "0"; "chr1"; "200"; "30"; "4M"; "*"; "0"; "0"; "ACGT"; "FFFF"]].

Definition bam_plain2 : string :=
  unlines [Examples.hd_line; Examples.sq_line;
           Examples.row ["r1"; "0"; "chr1"; "100"; "30"; "4M"; "*"; "0"; "0"; "ACGT"; "FFFF"];
           Examples.row ["r2"; "0"; "chr1"; "250"; "30"; "4M"; "*"; "0"; "0"; "ACGT"; "FFFF"]].

Definition files : state :=
  {| fs := list_to_map
             [(UserPath "a.bam", Examples.bam_a); (UserPath "b.bam", Examples.bam_b);
              (UserPath "plain1.bam", bam_plain1); (UserPath "plain2.bam", bam_plain2);
              (UserPath "old.sam", "kept")];
     next_tmp := 3 |}.

(** Tools whose [sort] always fails. *)
Definition broken_sort : Tools := {|
  pysam_view := Reference.samtools_view;
  unix_sort := fun _ _ => None;
  subby_run := fun _ _ => None
|}.

(** A side whose [min_mapq] is the string "10". *)
Definition side_str : BamDataFile :=
  {| path := UserPath "a.bam";
     compare_opts := {[ "min_mapq" := PyStr "10" ]} |}.

(** A side without options. *)
Definition side_plain : BamDataFile :=
  {| path := UserPath "a.bam"; compare_opts := ∅ |}.

End Examples2.

(** * Properties *)

#[local] Arguments String.append : simpl nomatch.
#[local] Arguments cat_pipe : simpl never.

(** ** Normalisation *)

Lemma sub_scan_skip k s : sub_scan k s = sub_scan 0 (str_drop k s).
Proof.
  revert k; induction s as [|c r IH]; intros [|k]; try reflexivity.
  simpl sub_scan at 1. simpl str_drop. apply IH.
Qed.

Lemma re_sub_unset_cons c r :
  re_sub_unset (String c r) =
  match match_unset (String c r) with
  | Some n => "UNSET-placeholder" +:+ re_sub_unset (str_drop n (String c r))
  | None => String c (re_sub_unset r)
  end.
Proof.
  unfold re_sub_unset. simpl sub_scan.
  destruct (match_unset (String c r)) as [n|] eqn:E; [|reflexivity].
  rewrite sub_scan_skip. destruct n as [|n].
  - unfold match_unset in E. destruct (strip_prefix _ _); [|discriminate].
    destruct (word_run _); discriminate.
  - simpl. by rewrite Nat.sub_0_r.
Qed.

Lemma word_run_drop r : word_run (str_drop (word_run r) r) = 0%nat.
Proof.
  induction r as [|c r IH]; [reflexivity|].
  simpl. destruct (is_word c) eqn:E; simpl; [exact IH|by rewrite E].
Qed.

Lemma word_run_head s : word_run s = 0%nat <-> head_word s = false.
Proof. destruct s as [|c r]; simpl; [tauto|]. destruct (is_word c); split; congruence. Qed.

Lemma strip_prefix_Some p s r : strip_prefix p s = Some r -> s = p +:+ r.
Proof.
  revert s; induction p as [|a p IH]; intros s Hs; simpl in *.
  - congruence.
  - destruct s as [|b s]; [discriminate|].
    destruct (Ascii.eqb_spec a b); [|discriminate]. subst. f_equal. by apply IH.
Qed.

Lemma strip_prefix_app p r : strip_prefix p (p +:+ r) = Some r.
Proof. induction p as [|a p IH]; simpl; [reflexivity|]. by rewrite Ascii.eqb_refl. Qed.

Lemma str_drop_app p r : str_drop (String.length p) (p +:+ r) = r.
Proof. induction p; simpl; auto. Qed.

Lemma match_unset_Some s n :
  match_unset s = Some n ->
  exists r, s = "UNSET-" +:+ r /\ head_word r = true /\
            str_drop n s = str_drop (word_run r) r.
Proof.
  unfold match_unset. destruct (strip_prefix "UNSET-" s) as [r|] eqn:E; [|discriminate].
  apply strip_prefix_Some in E. destruct (word_run r) as [|k] eqn:W; [discriminate|].
  intros [= <-]. exists r. split; [exact E|]. split.
  - destruct (head_word r) eqn:Hh; [reflexivity|]. apply word_run_head in Hh. lia.
  - subst s. rewrite W. reflexivity.
Qed.

Lemma match_unset_intro r :
  head_word r = true -> match_unset ("UNSET-" +:+ r) = Some (6 + word_run r)%nat.
Proof.
  intros Hh. unfold match_unset. rewrite strip_prefix_app.
  destruct (word_run r) eqn:W; [|reflexivity].
  apply word_run_head in W. congruence.
Qed.

Lemma head_word_re_sub s : head_word (re_sub_unset s) = head_word s.
Proof.
  destruct s as [|c r]; [reflexivity|]. rewrite re_sub_unset_cons.
  destruct (match_unset (String c r)) as [n|] eqn:E; [|reflexivity].
  apply match_unset_Some in E as (r' & Hs & _ & _).
  injection Hs as -> _. reflexivity.
Qed.

Lemma re_sub_peel s a t :
  re_sub_unset s = String a t -> a <> "U"%char ->
  exists r, s = String a r /\ re_sub_unset r = t.
Proof.
  destruct s as [|c r]; [discriminate|]. rewrite re_sub_unset_cons.
  destruct (match_unset (String c r)) as [n|] eqn:E.
  - simpl. intros [= <- _] Ha. congruence.
  - intros [= -> <-] _. eauto.
Qed.

Lemma no_new_match c r :
  match_unset (String c r) = None -> match_unset (String c (re_sub_unset r)) = None.
Proof.
  intros Hnone. destruct (match_unset (String c (re_sub_unset r))) as [n|] eqn:E; [|reflexivity].
  exfalso. apply match_unset_Some in E as (r' & Hs & Hh & _).
  simpl in Hs. injection Hs as -> Hs.
  apply re_sub_peel in Hs as (r1 & -> & Hs); [|discriminate].
  apply re_sub_peel in Hs as (r2 & -> & Hs); [|discriminate].
  apply re_sub_peel in Hs as (r3 & -> & Hs); [|discriminate].
  apply re_sub_peel in Hs as (r4 & -> & Hs); [|discriminate].
  apply re_sub_peel in Hs as (r5 & -> & Hs); [|discriminate].
  subst r'. rewrite head_word_re_sub in Hh.
  change (String "U" (String "N" (String "S" (String "E" (String "T" (String "-" r5))))))
    with ("UNSET-" +:+ r5) in Hnone.
  rewrite match_unset_intro in Hnone by exact Hh. discriminate.
Qed.

Lemma re_sub_placeholder t :
  head_word t = false ->
  re_sub_unset ("UNSET-placeholder" +:+ t) = "UNSET-placeholder" +:+ re_sub_unset t.
Proof.
  intros Ht. apply word_run_head in Ht.
  change ("UNSET-placeholder" +:+ t) with (String "U" ("NSET-placeholder" +:+ t)).
  rewrite re_sub_unset_cons.
  change (String "U" ("NSET-placeholder" +:+ t)) with ("UNSET-" +:+ ("placeholder" +:+ t)).
  rewrite match_unset_intro by reflexivity.
  replace (word_run ("placeholder" +:+ t)) with 11%nat by (simpl; by rewrite Ht).
  reflexivity.
Qed.

Lemma str_drop_length k s : (String.length (str_drop k s) <= String.length s)%nat.
Proof.
  revert s; induction k as [|k IH]; intros [|c r]; simpl; try lia.
  specialize (IH r). lia.
Qed.

Lemma re_sub_unset_idem_len n : forall s, (String.length s <= n)%nat ->
  re_sub_unset (re_sub_unset s) = re_sub_unset s.
Proof.
  induction n as [|n IH]; intros [|c r] Hlen; try reflexivity; simpl in Hlen; [lia|].
  rewrite re_sub_unset_cons.
  destruct (match_unset (String c r)) as [k|] eqn:E.
  - pose proof E as E'. apply match_unset_Some in E' as (r' & Hs & Hh & Hd).
    rewrite Hd. rewrite re_sub_placeholder.
    + f_equal. apply IH.
      injection Hs as -> ->. simpl in Hlen.
      pose proof (str_drop_length (word_run r') r'). lia.
    + rewrite head_word_re_sub. apply word_run_head. apply word_run_drop.
  - rewrite re_sub_unset_cons, (no_new_match _ _ E). f_equal. apply IH. lia.
Qed.

(** C7: the substitution of [UNSET-\w*\b] by [UNSET-placeholder] is
    idempotent: on every text, applying it twice gives the same text as
    applying it once. *)
Theorem re_sub_unset_idempotent (sam : string) :
  re_sub_unset (re_sub_unset sam) = re_sub_unset sam.
Proof. apply (re_sub_unset_idem_len (String.length sam)). lia. Qed.

(** ** Resolution of the compare options *)

Lemma py_max_int (a b : Z) : py_max (PyInt a) (PyInt b) = Ok (PyInt (Z.max a b)).
Proof.
  unfold py_max, py_gt. destruct (Z.ltb_spec a b).
  - by rewrite Z.max_r by lia.
  - by rewrite Z.max_l by lia.
Qed.

Lemma dict_get_int opts key :
  int_or_absent opts key ->
  dict_get opts key (PyInt 0) = PyInt (requested_int opts key).
Proof.
  unfold int_or_absent, dict_get, requested_int.
  destruct (opts !! key) as [[]|]; simpl; tauto.
Qed.

Lemma truthy_dict_get opts key :
  truthy (dict_get opts key PyNone) = requested_flag opts key.
Proof. unfold dict_get, requested_flag. by destruct (opts !! key). Qed.

(** C5: the effective [min_mapq] is the maximum of the two requested
    values, each 0 when absent, and the effective [compare_tag_columns]
    is the logical OR of the two requested values (for two booleans the
    boolean OR itself); the resolution is a maximum and a union. *)
Theorem option_resolution_max_or (self : BamDataFile) (other_opts : gmap string pyval) :
  int_or_absent (compare_opts self) "min_mapq" ->
  int_or_absent other_opts "min_mapq" ->
  _get_min_mapq self other_opts =
    Ok (PyInt (Z.max (requested_int (compare_opts self) "min_mapq")
                     (requested_int other_opts "min_mapq")))
  /\ truthy (_get_compare_tag_columns self other_opts) =
       requested_flag (compare_opts self) "compare_tag_columns"
       || requested_flag other_opts "compare_tag_columns"
  /\ forall a b : bool,
       compare_opts self !! "compare_tag_columns" = Some (PyBool a) ->
       other_opts !! "compare_tag_columns" = Some (PyBool b) ->
       _get_compare_tag_columns self other_opts = PyBool (a || b).
Proof.
  intros Hs Ho. split; [|split].
  - unfold _get_min_mapq. rewrite !dict_get_int by assumption. apply py_max_int.
  - unfold _get_compare_tag_columns, py_or.
    rewrite <- !truthy_dict_get.
    destruct (truthy (dict_get (compare_opts self) _ _)) eqn:E; simpl.
    + by rewrite E.
    + reflexivity.
  - intros a b Ha Hb. unfold _get_compare_tag_columns, py_or, dict_get.
    rewrite Ha, Hb. simpl. by destruct a.
Qed.

(** Side A requests 10 and side B requests 20: the effective value is 20. *)
Lemma option_resolution_witness :
  _get_min_mapq Examples.side_A Examples.opts_B = Ok (PyInt 20)
  /\ truthy (_get_compare_tag_columns Examples.side_A Examples.opts_B) = true.
Proof.
  destruct (option_resolution_max_or Examples.side_A Examples.opts_B) as (Hq & Ht & _).
  - vm_compute. exact I.
  - vm_compute. exact I.
  - split; [exact Hq | exact Ht].
Defined.

(** ** Lines and fields *)

Lemma append_assoc_s (a b c : string) : (a +:+ b) +:+ c = a +:+ (b +:+ c).
Proof. induction a as [|x a IH]; simpl; [reflexivity|]. by rewrite IH. Qed.

Lemma no_nl_cons c s : no_nl (String c s) <-> Ascii.eqb c "010" = false /\ no_nl s.
Proof.
  unfold no_nl. simpl. rewrite andb_true_iff, negb_true_iff. tauto.
Qed.

Lemma no_nl_app a b : no_nl a -> no_nl b -> no_nl (a +:+ b).
Proof.
  induction a as [|x a IH]; simpl; [tauto|].
  rewrite !no_nl_cons. intros [Hx Ha] Hb. auto.
Qed.

Lemma unix_lines_line l rest :
  no_nl l -> unix_lines (l +:+ String "010" rest) = l :: unix_lines rest.
Proof.
  induction l as [|c l IH]; intros Hl.
  - reflexivity.
  - apply no_nl_cons in Hl as [Hc Hl]. simpl. rewrite Hc, (IH Hl). reflexivity.
Qed.

Lemma unix_lines_unlines ls : Forall no_nl ls -> unix_lines (unlines ls) = ls.
Proof.
  induction 1 as [|l ls Hl _ IH]; [reflexivity|].
  unfold unlines in *. simpl. rewrite append_assoc_s. simpl.
  rewrite unix_lines_line by exact Hl. by rewrite IH.
Qed.

Lemma unix_lines_no_nl s : Forall no_nl (unix_lines s).
Proof.
  induction s as [|c s IH]; simpl; [constructor|].
  destruct (Ascii.eqb c "010") eqn:Hc.
  - constructor; [reflexivity|exact IH].
  - destruct (unix_lines s) as [|ln lns].
    + constructor; [|constructor]. apply no_nl_cons. by split.
    + inversion IH; subst. constructor; [|assumption]. apply no_nl_cons. by split.
Qed.

Lemma fields_no_nl s : no_nl s -> Forall no_nl (fields s).
Proof.
  induction s as [|c s IH]; simpl; intros Hs.
  - constructor; [reflexivity|constructor].
  - apply no_nl_cons in Hs as [Hc Hs]. specialize (IH Hs).
    destruct (Ascii.eqb c "009").
    + constructor; [reflexivity|exact IH].
    + destruct (fields s) as [|f fs].
      * constructor; [|constructor]. apply no_nl_cons. by split.
      * inversion IH; subst. constructor; [|assumption]. apply no_nl_cons. by split.
Qed.

Lemma fields_nonempty s : fields s <> [].
Proof.
  destruct s as [|c s]; simpl; [discriminate|].
  destruct (Ascii.eqb c "009"); [discriminate|]. by destruct (fields s).
Qed.

Lemma join_with_cons sep p q ps :
  join_with sep (p :: q :: ps) = p +:+ sep +:+ join_with sep (q :: ps).
Proof. reflexivity. Qed.

(** A line is its fields joined by TAB. *)
Lemma join_fields s : join_with TAB (fields s) = s.
Proof.
  induction s as [|c s IH]; [reflexivity|]. simpl.
  destruct (Ascii.eqb_spec c "009") as [->|Hc].
  - pose proof (fields_nonempty s). destruct (fields s) as [|f fs]; [done|].
    rewrite <- IH. reflexivity.
  - pose proof (fields_nonempty s). destruct (fields s) as [|f fs]; [done|].
    rewrite <- IH. by destruct fs.
Qed.

Lemma free_cons d c s : free d (String c s) <-> Ascii.eqb c d = false /\ free d s.
Proof. unfold free. simpl. rewrite andb_true_iff, negb_true_iff. tauto. Qed.

Lemma free_app d a b : free d a -> free d b -> free d (a +:+ b).
Proof.
  induction a as [|x a IH]; simpl; [tauto|].
  rewrite !free_cons. intros [Hx Ha] Hb. auto.
Qed.

Lemma fields_free s : free "009" s -> fields s = [s].
Proof.
  induction s as [|c s IH]; [reflexivity|]. intros Hs.
  apply free_cons in Hs as [Hc Hs]. simpl. rewrite Hc, (IH Hs). reflexivity.
Qed.

Lemma fields_app_tab a b : free "009" a -> fields (a +:+ String "009" b) = a :: fields b.
Proof.
  induction a as [|c a IH]; [reflexivity|]. intros Ha.
  apply free_cons in Ha as [Hc Ha]. simpl. rewrite Hc, (IH Ha). reflexivity.
Qed.

(** A line with one field holds no TAB. *)
Lemma fields_single s x : fields s = [x] -> free "009" s.
Proof.
  revert x. induction s as [|c s IH]; intros x; [reflexivity|]. simpl.
  destruct (Ascii.eqb c "009") eqn:Hc.
  - intros [= _ E]. by apply fields_nonempty in E.
  - pose proof (fields_nonempty s) as Hn.
    destruct (fields s) as [|f fs] eqn:F; [done|].
    intros [= _ ->]. apply free_cons. split; [exact Hc|]. by apply (IH f).
Qed.

(** The fields of a line made of fields without a TAB. *)
Lemma fields_join_with fs :
  fs <> [] -> Forall (free "009") fs -> fields (join_with TAB fs) = fs.
Proof.
  intros Hne Hfs. induction Hfs as [|f fs Hf Hfs IH]; [done|].
  destruct fs as [|g fs]; [by apply fields_free|].
  rewrite join_with_cons.
  change (f +:+ TAB +:+ join_with TAB (g :: fs))
    with (f +:+ String "009" (join_with TAB (g :: fs))).
  rewrite fields_app_tab by exact Hf. f_equal. by apply IH.
Qed.

Lemma lookup_map {A B} (f : A -> B) (l : list A) (i : nat) :
  map f l !! i = f <$> l !! i.
Proof.
  revert i. induction l as [|a l IH]; intros [|i]; try reflexivity. apply IH.
Qed.

Lemma select_fields_Forall (P : string -> Prop) ranges i fs :
  Forall P fs -> Forall P (select_fields ranges i fs).
Proof.
  intros Hfs. revert i. induction Hfs as [|f fs Hf _ IH]; intros i; simpl; [constructor|].
  destruct (in_ranges ranges i); [constructor|]; auto.
Qed.

Lemma join_with_no_nl fs : Forall no_nl fs -> no_nl (join_with TAB fs).
Proof.
  induction 1 as [|f fs Hf Hfs IH]; [reflexivity|].
  destruct fs as [|g fs]; [exact Hf|].
  rewrite join_with_cons. apply no_nl_app; [exact Hf|]. by apply no_nl_app.
Qed.

Lemma cut_line_no_nl ranges line : no_nl line -> no_nl (cut_line ranges line).
Proof.
  intros Hl. unfold cut_line. pose proof (fields_no_nl line Hl) as Hf.
  destruct (fields line) as [|f [|g fs]]; [reflexivity|exact Hl|].
  apply join_with_no_nl. by apply select_fields_Forall.
Qed.

(** [cut -f] prints one line for every line of its input, in order. *)
Lemma unix_lines_cut ranges text :
  unix_lines (unlines (map (cut_line ranges) (unix_lines text)))
  = map (cut_line ranges) (unix_lines text).
Proof.
  apply unix_lines_unlines, Forall_map.
  eapply Forall_impl; [apply unix_lines_no_nl|]. intros l. apply cut_line_no_nl.
Qed.

(** ** Columns 1-11 *)

Lemma select_fields_beyond ranges i fs :
  bounded ranges -> (11 < i)%N -> select_fields ranges i fs = [].
Proof.
  intros Hb. revert i. induction fs as [|f fs IH]; intros i Hi; simpl; [reflexivity|].
  rewrite (Hb i Hi). apply IH. lia.
Qed.

Lemma select_fields_take ranges k i fs :
  bounded ranges -> (N.of_nat k + i = 12)%N ->
  select_fields ranges i fs = select_fields ranges i (take k fs).
Proof.
  intros Hb. revert i fs. induction k as [|k IH]; intros i fs Hi.
  - rewrite take_0. simpl. apply select_fields_beyond; [exact Hb|lia].
  - destruct fs as [|f fs]; [reflexivity|]. simpl.
    rewrite (IH (N.succ i) fs) by lia. reflexivity.
Qed.

Lemma cut_line_agree ranges a b :
  bounded ranges -> same_columns a b = true -> cut_line ranges a = cut_line ranges b.
Proof.
  intros Hb Hs. unfold same_columns in Hs. apply bool_decide_eq_true in Hs.
  unfold cut_line.
  pose proof (join_fields a) as Ja. pose proof (join_fields b) as Jb.
  destruct (fields a) as [|a1 [|a2 fa]] eqn:Fa; [by apply fields_nonempty in Fa| |].
  - destruct (fields b) as [|b1 [|b2 fb]] eqn:Fb; [by apply fields_nonempty in Fb| |].
    + simpl in *. congruence.
    + simpl in Hs. discriminate.
  - destruct (fields b) as [|b1 [|b2 fb]] eqn:Fb; [by apply fields_nonempty in Fb| |].
    + simpl in Hs. discriminate.
    + rewrite (select_fields_take ranges 11 1 (a1 :: a2 :: fa)) by (done || lia).
      rewrite (select_fields_take ranges 11 1 (b1 :: b2 :: fb)) by (done || lia).
      by rewrite Hs.
Qed.

Lemma lines_agree_cut ranges l1 l2 :
  bounded ranges -> lines_agree l1 l2 = true ->
  map (cut_line ranges) l1 = map (cut_line ranges) l2.
Proof.
  intros Hb. revert l2. induction l1 as [|a l1 IH]; intros [|b l2]; simpl; try done.
  rewrite andb_true_iff. intros [Hab Hl]. f_equal; [by apply cut_line_agree|by apply IH].
Qed.

Lemma cut_f_agree columns ranges text1 text2 :
  parse_ranges (split_on "," columns) = Some ranges -> bounded ranges ->
  tag_only_difference text1 text2 = true ->
  cut_f columns text1 = cut_f columns text2.
Proof.
  intros Hp Hb Ht. unfold cut_f. rewrite Hp. f_equal. f_equal.
  by apply lines_agree_cut.
Qed.

Lemma bounded_explicit ranges :
  forallb (fun r => match snd r with
                    | Some hi => N.leb hi 11
                    | None => false
                    end) ranges = true ->
  bounded ranges.
Proof.
  intros Hall i Hi. unfold in_ranges.
  induction ranges as [|[lo [hi|]] ranges IH]; simpl in *; [reflexivity| |discriminate].
  apply andb_true_iff in Hall as [Hhi Hall]. apply N.leb_le in Hhi.
  rewrite (IH Hall), orb_false_r.
  replace (N.leb i hi) with false by (symmetry; apply N.leb_gt; lia).
  apply andb_false_r.
Qed.

Lemma bounded_INVARIATE :
  exists ranges,
    parse_ranges (split_on "," INVARIATE_COLUMNS) = Some ranges /\ bounded ranges.
Proof.
  exists [(1, Some 1); (2, Some 2); (5, Some 5); (10, Some 10); (11, Some 11)]%N.
  split; [by vm_compute|]. by apply bounded_explicit.
Qed.

Lemma bounded_ALL :
  exists ranges,
    parse_ranges (split_on "," ALL_COLUMNS) = Some ranges /\ bounded ranges.
Proof.
  exists [(1, Some 11)]%N.
  split; [by vm_compute|]. by apply bounded_explicit.
Qed.

Lemma diff_count_same l : diff_count l l = 0%nat.
Proof. induction l as [|a l IH]; simpl; [reflexivity|]. by rewrite String.eqb_refl, IH. Qed.

Lemma diff_lines_same text : diff_lines text text = 0.
Proof. unfold diff_lines. by rewrite diff_count_same. Qed.

Lemma projected_count_agree columns text1 text2 :
  (exists ranges, parse_ranges (split_on "," columns) = Some ranges /\ bounded ranges) ->
  tag_only_difference text1 text2 = true ->
  projected_count columns text1 text2 = Ok 0.
Proof.
  intros (ranges & Hp & Hb) Ht. unfold projected_count, project_columns.
  rewrite (cut_f_agree columns ranges text1 text2 Hp Hb Ht).
  unfold cut_f. rewrite Hp. cbn. by rewrite diff_lines_same.
Qed.

(** ** Command lines *)

Lemma all_chars_app p a b : all_chars p (a +:+ b) = all_chars p a && all_chars p b.
Proof. induction a as [|c a IH]; simpl; [reflexivity|]. by rewrite IH, andb_assoc. Qed.

Lemma uint_plain u : all_chars is_plain (NilEmpty.string_of_uint u) = true.
Proof. induction u; simpl; try reflexivity; exact IHu. Qed.

Lemma nat_plain d : all_chars is_plain (NilZero.string_of_uint (Nat.to_uint d)) = true.
Proof.
  unfold NilZero.string_of_uint. destruct (Nat.to_uint d); try reflexivity;
    apply (uint_plain (_ _)).
Qed.

(** The name of a file in a directory of [tempdir] is a plain word when
    the name of the file in the directory is. *)
Lemma file_word_temp d name :
  all_chars is_plain name = true -> file_word (path_str (TempPath d name)) = true.
Proof.
  intros Hn. unfold path_str.
  change ("/tmp/tmp" +:+ NilZero.string_of_uint (Nat.to_uint d) +:+ "/" +:+ name)
    with (String "/" ("tmp/tmp" +:+ NilZero.string_of_uint (Nat.to_uint d) +:+ "/" +:+ name)).
  unfold file_word, plain_word. cbn [Ascii.eqb negb andb all_chars].
  rewrite !all_chars_app, nat_plain, Hn. reflexivity.
Qed.

Lemma temp_sam_word d p :
  all_chars is_plain (stem p) = true ->
  file_word (path_str (TempPath d ("output_" +:+ stem p +:+ ".sam"))) = true.
Proof.
  intros Hs. apply file_word_temp. rewrite !all_chars_app, Hs. reflexivity.
Qed.

Section CommandLines.
Context `{Tools}.

(** A command line of plain words runs the tool on the file. *)
Lemma cat_pipe_run path tool args plain run st text :
  file_word (path_str path) = true -> plain = true -> fs st !! path = Some text ->
  cat_pipe path tool args plain run st = tool_result tool (run text) st.
Proof.
  intros Hw -> Hf. unfold cat_pipe. rewrite Hw. cbn [andb].
  unfold bind, tool_read. by rewrite Hf.
Qed.

(** No command line changes the state. *)
Lemma cat_pipe_state path tool args plain run st :
  snd (cat_pipe path tool args plain run st) = st.
Proof.
  unfold cat_pipe, bind, tool_read, get_files.
  destruct (file_word _ && plain); cbn.
  - destruct (fs st !! path); cbn; [by destruct (run _)|reflexivity].
  - by destruct (subby_run _ _).
Qed.


End CommandLines.

(** ** The module against the two-pass policy *)

Lemma yields_bind {A B} (m : M A) (k : A -> M B) st (r : result A) (r' : A -> result B)
    (Q R : state -> Prop) :
  yields m st r Q ->
  (forall a st', r = Ok a -> Q st' -> yields (k a) st' (r' a) R) ->
  yields (bind m k) st (rbind r r') R.
Proof.
  intros (st' & Hm & HQ) Hk. unfold yields, bind. rewrite Hm.
  destruct r as [a|e]; simpl.
  - exact (Hk a st' eq_refl HQ).
  - eauto.
Qed.

Lemma yields_weaken {A} (m : M A) st r (Q R : state -> Prop) :
  yields m st r Q -> (forall st', Q st' -> R st') -> yields m st r R.
Proof.
  intros (st' & Hm & HQ) HR. exists st'. split; [exact Hm|].
  destruct r; auto.
Qed.

Lemma yields_bind_ok {A B} (m : M A) (k : A -> M B) st a r (Q R : state -> Prop) :
  yields m st (Ok a) Q ->
  (forall st', Q st' -> yields (k a) st' r R) ->
  yields (bind m k) st r R.
Proof.
  intros (st' & Hm & HQ) Hk. unfold yields, bind. rewrite Hm. exact (Hk st' HQ).
Qed.

Lemma yields_bind_raise {A B} (m : M A) (k : A -> M B) st e (Q R : state -> Prop) :
  yields m st (Raise e) Q -> yields (bind m k) st (Raise e) R.
Proof.
  intros (st' & Hm & _). unfold yields, bind. rewrite Hm. eauto.
Qed.

Lemma yields_assoc {A B C} (m : M A) (k : A -> M B) (k' : B -> M C) st r Q :
  yields (bind (bind m k) k') st r Q ->
  yields (bind m (fun x => bind (k x) k')) st r Q.
Proof.
  unfold yields, bind. destruct (m st) as [[a|e] st1]; auto.
Qed.

Lemma rbind_assoc {A B C} (r : result A) (k : A -> result B) (k' : B -> result C) :
  rbind (rbind r k) k' = rbind r (fun x => rbind (k x) k').
Proof. by destruct r. Qed.

Lemma yields_fst {A} (m : M A) st r Q : yields m st r Q -> fst (m st) = r.
Proof. intros (st' & -> & _). reflexivity. Qed.

Lemma tempdir_yields st :
  yields tempdir st (Ok (next_tmp st))
    (fun st' => fs st' = fs st /\ next_tmp st' = S (next_tmp st)).
Proof. eexists; split; [reflexivity|]. by split. Qed.

Section Refinement.
Context `{Tools}.

Lemma bam_to_sam_yields st input_bam output_sam headers min_mapq sorting bam :
  all_chars is_plain (stem output_sam) = true ->
  fs st !! input_bam = Some bam ->
  yields (bam_to_sam input_bam output_sam headers min_mapq sorting) st
    (rbind (convert headers min_mapq sorting bam) (fun _ => Ok tt))
    (fun st' =>
       (next_tmp st <= next_tmp st')%nat
       /\ (forall p, old st p -> p <> output_sam -> fs st' !! p = fs st !! p)
       /\ (forall text, convert headers min_mapq sorting bam = Ok text ->
                        fs st' !! output_sam = Some text)).
Proof.
  intros Hstem Hin. unfold yields, bam_to_sam, convert, bind, tool_read, header_end.
  rewrite Hin. cbn [tool_result of_tool rbind].
  destruct (pysam_view (view_opts headers min_mapq) bam) as [out|]; cbn;
    [|eauto].
  destruct sorting; cbn.
  - eauto.
  - erewrite cat_pipe_run;
      [|by apply temp_sam_word|reflexivity|cbn; apply lookup_insert_eq].
    destruct (unix_sort _ _) as [sorted|]; cbn; [|eauto].
    eexists; split; [reflexivity|]. cbn. split; [lia|]. split.
    + intros p Hold Hne. rewrite !lookup_insert_ne; [reflexivity| |congruence..].
      intros <-. unfold old in Hold. simpl in Hold. lia.
    + intros text [= <-]. by rewrite lookup_insert_eq.
  - erewrite cat_pipe_run;
      [|by apply temp_sam_word|reflexivity|cbn; apply lookup_insert_eq].
    destruct (unix_sort _ _) as [sorted|]; cbn; [|eauto].
    eexists; split; [reflexivity|]. cbn. split; [lia|]. split.
    + intros p Hold Hne. rewrite !lookup_insert_ne; [reflexivity| |congruence..].
      intros <-. unfold old in Hold. simpl in Hold. lia.
    + intros text [= <-]. by rewrite lookup_insert_eq.
Qed.

Lemma diff_default_yields st file1 file2 text1 text2 :
  fs st !! file1 = Some text1 -> fs st !! file2 = Some text2 ->
  yields (diff_default file1 file2) st (Ok (diff_lines text1 text2)) (fun st' => st' = st).
Proof.
  intros H1 H2. unfold yields, diff_default, bind, tool_read. rewrite H1, H2.
  eexists; split; reflexivity.
Qed.

Lemma diff_bam_columns_yields st file1 file2 columns text1 text2 :
  fs st !! file1 = Some text1 -> fs st !! file2 = Some text2 ->
  old st file1 -> old st file2 ->
  file_word (path_str file1) = true -> file_word (path_str file2) = true ->
  plain_word columns = true ->
  yields (diff_bam_columns file1 file2 columns) st
    (rbind (project_columns columns text1) (fun p1 =>
     rbind (project_columns columns text2) (fun p2 => Ok (diff_lines p1 p2))))
    (fun st' =>
       (next_tmp st <= next_tmp st')%nat
       /\ (forall p, old st p -> fs st' !! p = fs st !! p)).
Proof.
  intros H1 H2 Ho1 Ho2 W1 W2 Wc.
  assert (Hfresh : forall p name, old st p -> TempPath (next_tmp st) name <> p).
  { intros p name Hold <-. unfold old in Hold. simpl in Hold. lia. }
  unfold yields, diff_bam_columns, make_comparable, diff_default, project_columns,
    bind, tool_read, tempdir.
  cbn. erewrite cat_pipe_run; [|exact W1|exact Wc|exact H1].
  destruct (cut_f columns text1) as [p1|]; cbn; [|eauto].
  erewrite cat_pipe_run;
    [|exact W2|exact Wc|cbn; rewrite lookup_insert_ne by auto; exact H2].
  destruct (cut_f columns text2) as [p2|]; cbn; [|eauto].
  rewrite lookup_insert_ne by discriminate. rewrite lookup_insert_eq. cbn.
  rewrite lookup_insert_eq. cbn.
  eexists; split; [reflexivity|]. cbn. split; [lia|].
  intros p Hold. by rewrite !lookup_insert_ne by auto.
Qed.

Lemma assert_text_files_equal_yields st file1 file2 allowed diff_fn r Q :
  yields (diff_fn file1 file2) st r Q ->
  yields (assert_text_files_equal file1 file2 allowed diff_fn) st
    (rbind r (fun n => if allowed <? n
                       then Raise (AssertionError (diff_message n) None)
                       else Ok tt)) Q.
Proof.
  intros (st' & Hm & HQ). unfold yields, assert_text_files_equal, bind.
  rewrite Hm. destruct r as [n|e]; cbn; [|eauto].
  destruct (allowed <? n); cbn; eauto.
Qed.

Lemma before_old n st p : before n p -> (n <= next_tmp st)%nat -> old st p.
Proof. unfold old. destruct p; simpl; [tauto|lia]. Qed.

Lemma before_ne n name p : before n p -> p <> TempPath n name.
Proof. intros Hb ->. simpl in Hb. lia. Qed.

(** The two conversions of a pass. *)
Lemma conversions_yield st n file1 file2 name1 name2 headers min_mapq sorting bam1 bam2 :
  all_chars is_plain (stem (TempPath n name1)) = true ->
  all_chars is_plain (stem (TempPath n name2)) = true ->
  name1 <> name2 -> (n < next_tmp st)%nat ->
  before n file1 -> before n file2 ->
  fs st !! file1 = Some bam1 -> fs st !! file2 = Some bam2 ->
  yields (bam_to_sam file1 (TempPath n name1) headers min_mapq sorting ;;;
          bam_to_sam file2 (TempPath n name2) headers min_mapq sorting) st
    (rbind (convert headers min_mapq sorting bam1) (fun _ =>
     rbind (convert headers min_mapq sorting bam2) (fun _ => Ok tt)))
    (fun st' =>
       (n < next_tmp st')%nat
       /\ fs st' !! file1 = Some bam1 /\ fs st' !! file2 = Some bam2
       /\ forall sam1 sam2,
            convert headers min_mapq sorting bam1 = Ok sam1 ->
            convert headers min_mapq sorting bam2 = Ok sam2 ->
            fs st' !! TempPath n name1 = Some sam1
            /\ fs st' !! TempPath n name2 = Some sam2).
Proof.
  intros Hw1 Hw2 Hne Hn Hb1 Hb2 H1 H2.
  pose proof (bam_to_sam_yields st file1 (TempPath n name1) headers min_mapq sorting bam1
                Hw1 H1) as Y1.
  destruct (convert headers min_mapq sorting bam1) as [sam1|e1] eqn:C1.
  2:{ destruct Y1 as (st1 & E1 & _). exists st1. unfold bind. rewrite E1. by split. }
  destruct Y1 as (st1 & E1 & Hle1 & Hfr1 & Hout1). cbn [rbind].
  assert (H2' : fs st1 !! file2 = Some bam2).
  { rewrite Hfr1; [exact H2| |]. { eapply before_old; [exact Hb2|lia]. } by apply before_ne. }
  pose proof (bam_to_sam_yields st1 file2 (TempPath n name2) headers min_mapq sorting bam2
                Hw2 H2') as Y2.
  destruct (convert headers min_mapq sorting bam2) as [sam2|e2] eqn:C2.
  2:{ destruct Y2 as (st2 & E2 & _). exists st2. unfold bind. rewrite E1, E2. by split. }
  destruct Y2 as (st2 & E2 & Hle2 & Hfr2 & Hout2).
  exists st2. unfold bind. rewrite E1, E2. split; [reflexivity|].
  split; [lia|]. split; [|split].
  - rewrite Hfr2, Hfr1; [exact H1| | | |].
    + eapply before_old; [exact Hb1|lia].
    + by apply before_ne.
    + eapply before_old; [exact Hb1|lia].
    + by apply before_ne.
  - rewrite Hfr2; [exact H2'| |].
    + eapply before_old; [exact Hb2|lia].
    + by apply before_ne.
  - intros s1 s2 [= <-] [= <-]. split.
    + rewrite Hfr2; [by apply Hout1| simpl; lia | congruence].
    + by apply Hout2.
Qed.

(** A pass: the two conversions, then what is done with their outputs. *)
Lemma pass_yields st n file1 file2 name1 name2 headers min_mapq sorting bam1 bam2
    (k : M unit) (cmp : string -> string -> result unit) (R : state -> Prop) :
  all_chars is_plain (stem (TempPath n name1)) = true ->
  all_chars is_plain (stem (TempPath n name2)) = true ->
  name1 <> name2 -> (n < next_tmp st)%nat ->
  before n file1 -> before n file2 ->
  fs st !! file1 = Some bam1 -> fs st !! file2 = Some bam2 ->
  (forall st' sam1 sam2,
     (n < next_tmp st')%nat ->
     fs st' !! file1 = Some bam1 -> fs st' !! file2 = Some bam2 ->
     fs st' !! TempPath n name1 = Some sam1 ->
     fs st' !! TempPath n name2 = Some sam2 ->
     yields k st' (cmp sam1 sam2) R) ->
  yields (bam_to_sam file1 (TempPath n name1) headers min_mapq sorting ;;;
          bam_to_sam file2 (TempPath n name2) headers min_mapq sorting ;;; k) st
    (rbind (convert headers min_mapq sorting bam1) (fun sam1 =>
     rbind (convert headers min_mapq sorting bam2) (fun sam2 => cmp sam1 sam2))) R.
Proof.
  intros Hw1 Hw2 Hne Hn Hb1 Hb2 H1 H2 Hk.
  pose proof (conversions_yield st n file1 file2 name1 name2 headers min_mapq
                sorting bam1 bam2 Hw1 Hw2 Hne Hn Hb1 Hb2 H1 H2) as Y.
  apply (yields_assoc (bam_to_sam file1 _ _ _ _) (fun _ => bam_to_sam file2 _ _ _ _) (fun _ => k)).
  destruct (convert headers min_mapq sorting bam1) as [sam1|e1]; cbn [rbind] in *.
  2:{ eapply yields_bind_raise. exact Y. }
  destruct (convert headers min_mapq sorting bam2) as [sam2|e2]; cbn [rbind] in *.
  2:{ eapply yields_bind_raise. exact Y. }
  eapply yields_bind_ok; [exact Y|].
  intros st' (Hn' & H1' & H2' & Hout). destruct (Hout sam1 sam2 eq_refl eq_refl).
  by apply Hk.
Qed.

Lemma projected_diff_yields st file1 file2 columns allowed text1 text2 :
  fs st !! file1 = Some text1 -> fs st !! file2 = Some text2 ->
  old st file1 -> old st file2 ->
  file_word (path_str file1) = true -> file_word (path_str file2) = true ->
  plain_word columns = true ->
  yields (assert_text_files_equal file1 file2 allowed
            (fun f1 f2 => diff_bam_columns f1 f2 columns)) st
    (rbind (projected_count columns text1 text2) (within allowed))
    (fun st' =>
       (next_tmp st <= next_tmp st')%nat
       /\ (forall p, old st p -> fs st' !! p = fs st !! p)).
Proof.
  intros H1 H2 Ho1 Ho2 W1 W2 Wc.
  exact (assert_text_files_equal_yields st file1 file2 allowed
           (fun f1 f2 => diff_bam_columns f1 f2 columns) _ _
           (diff_bam_columns_yields st file1 file2 columns text1 text2 H1 H2 Ho1 Ho2
              W1 W2 Wc)).
Qed.

Lemma bounded_diff_yields st file1 file2 allowed text1 text2 :
  fs st !! file1 = Some text1 -> fs st !! file2 = Some text2 ->
  yields (assert_text_files_equal file1 file2 allowed diff_default) st
    (within allowed (diff_lines text1 text2)) (fun st' => st' = st).
Proof.
  intros H1 H2.
  exact (assert_text_files_equal_yields st file1 file2 allowed diff_default _ _
           (diff_default_yields st file1 file2 text1 text2 H1 H2)).
Qed.

(** The module computes the two-pass policy. *)
Lemma assert_bam_files_equal_two_pass st file1 file2 allowed min_mapq
    compare_tag_columns bam1 bam2 :
  fs st !! file1 = Some bam1 -> fs st !! file2 = Some bam2 ->
  old st file1 -> old st file2 ->
  fst (assert_bam_files_equal file1 file2 allowed min_mapq compare_tag_columns st) =
  two_pass bam1 bam2 allowed min_mapq (truthy compare_tag_columns).
Proof.
  intros H1 H2 Ho1 Ho2.
  apply (yields_fst _ _ _ (fun _ => True)).
  replace (two_pass bam1 bam2 allowed min_mapq (truthy compare_tag_columns)) with
    (rbind (convert false PyNone NAME bam1) (fun sam1 =>
     rbind (convert false PyNone NAME bam2) (fun sam2 =>
     rbind (rbind (projected_count INVARIATE_COLUMNS sam1 sam2) (within allowed))
       (fun _ =>
          full_columns_pass bam1 bam2 allowed min_mapq (truthy compare_tag_columns))))).
  2:{ unfold two_pass, invariant_subset_pass, invariant_subset_count.
      destruct (convert false PyNone NAME bam1); [|reflexivity].
      destruct (convert false PyNone NAME bam2); reflexivity. }
  replace (full_columns_pass bam1 bam2 allowed min_mapq (truthy compare_tag_columns)) with
    (rbind (convert true min_mapq COORDINATE bam1) (fun sam1 =>
     rbind (convert true min_mapq COORDINATE bam2) (fun sam2 =>
     rbind (if truthy compare_tag_columns then Ok (diff_lines sam1 sam2)
            else projected_count ALL_COLUMNS sam1 sam2) (within allowed)))).
  2:{ unfold full_columns_pass, full_columns_count.
      destruct (convert true min_mapq COORDINATE bam1); [|reflexivity].
      destruct (convert true min_mapq COORDINATE bam2); reflexivity. }
  unfold assert_bam_files_equal.
  eapply yields_bind_ok; [apply tempdir_yields|].
  intros st1 [Hfs Hnt].
  apply pass_yields with
    (cmp := fun sam1 sam2 =>
       rbind (rbind (projected_count INVARIATE_COLUMNS sam1 sam2) (within allowed))
         (fun _ =>
            rbind (convert true min_mapq COORDINATE bam1) (fun sam1 =>
            rbind (convert true min_mapq COORDINATE bam2) (fun sam2 =>
            rbind (if truthy compare_tag_columns then Ok (diff_lines sam1 sam2)
                   else projected_count ALL_COLUMNS sam1 sam2) (within allowed)))));
    try (by rewrite ?Hfs); [lia|].
  intros st2 sam1 sam2 Hn2 H12 H22 Hs1 Hs2.
  eapply yields_bind.
  { apply projected_diff_yields;
      [exact Hs1|exact Hs2|unfold old; simpl; lia|unfold old; simpl; lia
      |by apply file_word_temp|by apply file_word_temp|reflexivity]. }
  intros [] st3 _ (Hn3 & Hfr3).
  apply pass_yields with
    (cmp := fun sam1 sam2 =>
       rbind (if truthy compare_tag_columns then Ok (diff_lines sam1 sam2)
              else projected_count ALL_COLUMNS sam1 sam2) (within allowed));
    try done; try lia.
  - rewrite Hfr3; [done|]. eapply before_old; [exact Ho1|lia].
  - rewrite Hfr3; [done|]. eapply before_old; [exact Ho2|lia].
  - intros st4 sam3 sam4 Hn4 H14 H24 Hs3 Hs4.
    destruct (truthy compare_tag_columns).
    + eapply yields_weaken; [by apply bounded_diff_yields|done].
    + eapply yields_weaken;
        [apply projected_diff_yields; try done; try (by apply file_word_temp);
         unfold old; simpl; lia|done].
Qed.
End Refinement.

(** ** The comparison *)

Section Comparison.
Context `{Tools}.

Lemma within_ok allowed count : within allowed count = Ok tt <-> count <= allowed.
Proof.
  unfold within. destruct (Z.ltb_spec allowed count); split; intros; try done; lia.
Qed.

Lemma two_pass_ok bam1 bam2 allowed min_mapq tags :
  two_pass bam1 bam2 allowed min_mapq tags = Ok tt <->
  invariant_subset_pass bam1 bam2 allowed = Ok tt
  /\ full_columns_pass bam1 bam2 allowed min_mapq tags = Ok tt.
Proof.
  unfold two_pass. destruct (invariant_subset_pass bam1 bam2 allowed) as [[]|e]; cbn.
  - tauto.
  - split; [discriminate|]. intros [? _]. discriminate.
Qed.

(** C1: [assert_bam_files_equal] performs exactly two passes.  Pass 1
    converts both files with [headers=False], [sorting=NAME] and no
    quality filter and diffs the projections onto columns 1,2,5,10,11;
    pass 2 converts both files with [headers=True], [sorting=COORDINATE]
    and the resolved [min_mapq] and diffs the projections onto columns
    1-11 when [compare_tag_columns] is false, the raw text otherwise.
    The comparison succeeds iff both passes succeed. *)
Theorem assert_bam_files_equal_two_passes (st : state) (file1 file2 : Path)
    (allowed_diff_lines : Z) (min_mapq compare_tag_columns : pyval)
    (bam1 bam2 : string) :
  fs st !! file1 = Some bam1 -> fs st !! file2 = Some bam2 ->
  old st file1 -> old st file2 ->
  fst (assert_bam_files_equal file1 file2 allowed_diff_lines min_mapq
         compare_tag_columns st) =
    two_pass bam1 bam2 allowed_diff_lines min_mapq (truthy compare_tag_columns)
  /\ (fst (assert_bam_files_equal file1 file2 allowed_diff_lines min_mapq
             compare_tag_columns st) = Ok tt <->
      invariant_subset_pass bam1 bam2 allowed_diff_lines = Ok tt
      /\ full_columns_pass bam1 bam2 allowed_diff_lines min_mapq
           (truthy compare_tag_columns) = Ok tt)
  /\ view_opts false PyNone = [].
Proof.
  intros H1 H2 Ho1 Ho2.
  rewrite (assert_bam_files_equal_two_pass st file1 file2 allowed_diff_lines
             min_mapq compare_tag_columns bam1 bam2 H1 H2 Ho1 Ho2).
  split; [reflexivity|]. split; [apply two_pass_ok|reflexivity].
Qed.

(** C2: the tolerance [allowed_diff_lines] is applied to each of the two
    passes on its own, not to the two counts together.  When pass 1
    counts [count1] differing lines and pass 2 counts [count2], the
    comparison succeeds iff neither count exceeds the tolerance; it fails
    with the count of pass 1 when that exceeds the tolerance, and with the
    count of pass 2 when only that does.  So a comparison in which each
    pass counts exactly [allowed_diff_lines] lines succeeds. *)
Theorem tolerance_applies_to_each_pass (st : state) (file1 file2 : Path)
    (allowed_diff_lines : Z) (min_mapq compare_tag_columns : pyval)
    (bam1 bam2 : string) (count1 count2 : Z) :
  fs st !! file1 = Some bam1 -> fs st !! file2 = Some bam2 ->
  old st file1 -> old st file2 ->
  invariant_subset_count bam1 bam2 = Ok count1 ->
  full_columns_count bam1 bam2 min_mapq (truthy compare_tag_columns) = Ok count2 ->
  (fst (assert_bam_files_equal file1 file2 allowed_diff_lines min_mapq
          compare_tag_columns st) = Ok tt
   <-> count1 <= allowed_diff_lines /\ count2 <= allowed_diff_lines)
  /\ (allowed_diff_lines < count1 ->
      fst (assert_bam_files_equal file1 file2 allowed_diff_lines min_mapq
             compare_tag_columns st)
      = Raise (AssertionError (diff_message count1) None))
  /\ (count1 <= allowed_diff_lines -> allowed_diff_lines < count2 ->
      fst (assert_bam_files_equal file1 file2 allowed_diff_lines min_mapq
             compare_tag_columns st)
      = Raise (AssertionError (diff_message count2) None))
  /\ (count1 = allowed_diff_lines -> count2 = allowed_diff_lines ->
      fst (assert_bam_files_equal file1 file2 allowed_diff_lines min_mapq
             compare_tag_columns st) = Ok tt).
Proof.
  intros H1 H2 Ho1 Ho2 Hc1 Hc2.
  rewrite (assert_bam_files_equal_two_pass st file1 file2 allowed_diff_lines
             min_mapq compare_tag_columns bam1 bam2 H1 H2 Ho1 Ho2).
  unfold two_pass, invariant_subset_pass, full_columns_pass.
  rewrite Hc1, Hc2. cbn [rbind]. unfold within.
  destruct (Z.ltb_spec allowed_diff_lines count1) as [L1|L1]; cbn [rbind];
    [|destruct (Z.ltb_spec allowed_diff_lines count2) as [L2|L2]].
  - split; [split; [discriminate|lia]|]. split; [done|]. split; intros; lia.
  - split; [split; [discriminate|lia]|]. split; [lia|]. split; [done|]. intros; lia.
  - split; [by split|]. split; [lia|]. split; [lia|]. done.
Qed.

(** C10: if neither side's options hold the key [compare_tag_columns],
    the resolved value is [None], not [False]; it is falsy, so pass 2
    projects both converted outputs onto columns 1-11. *)
Theorem default_excludes_tag_columns (self : BamDataFile)
    (other_opts : gmap string pyval) (st : state) (file1 file2 : Path)
    (allowed_diff_lines : Z) (min_mapq : pyval) (bam1 bam2 : string) :
  compare_opts self !! "compare_tag_columns" = None ->
  other_opts !! "compare_tag_columns" = None ->
  fs st !! file1 = Some bam1 -> fs st !! file2 = Some bam2 ->
  old st file1 -> old st file2 ->
  _get_compare_tag_columns self other_opts = PyNone
  /\ _get_compare_tag_columns self other_opts <> PyBool false
  /\ truthy (_get_compare_tag_columns self other_opts) = false
  /\ fst (assert_bam_files_equal file1 file2 allowed_diff_lines min_mapq
            (_get_compare_tag_columns self other_opts) st) =
     rbind (invariant_subset_pass bam1 bam2 allowed_diff_lines) (fun _ =>
     rbind (rbind (convert true min_mapq COORDINATE bam1) (fun sam1 =>
            rbind (convert true min_mapq COORDINATE bam2) (fun sam2 =>
            projected_count ALL_COLUMNS sam1 sam2)))
       (within allowed_diff_lines)).
Proof.
  intros Hs Ho H1 H2 Ho1 Ho2.
  assert (E : _get_compare_tag_columns self other_opts = PyNone).
  { unfold _get_compare_tag_columns, dict_get. by rewrite Hs, Ho. }
  rewrite E. split; [reflexivity|]. split; [discriminate|]. split; [reflexivity|].
  exact (assert_bam_files_equal_two_pass st file1 file2 allowed_diff_lines
           min_mapq PyNone bam1 bam2 H1 H2 Ho1 Ho2).
Qed.

(** *** The entry point *)

Variable _get_allowed_diff_lines : BamDataFile -> gmap string pyval -> Z.

Lemma assert_contents_equal_outcome st self other_path other_opts bam1 bam2 min_mapq :
  fs st !! path self = Some bam1 -> fs st !! other_path = Some bam2 ->
  old st (path self) -> old st other_path ->
  _get_min_mapq self other_opts = Ok min_mapq ->
  fst (_assert_contents_equal _get_allowed_diff_lines self other_path other_opts st) =
  surfaced self other_path
    (two_pass bam1 bam2 (_get_allowed_diff_lines self other_opts) min_mapq
       (truthy (_get_compare_tag_columns self other_opts))).
Proof.
  intros H1 H2 Ho1 Ho2 Hq.
  rewrite <- (assert_bam_files_equal_two_pass st (path self) other_path _ min_mapq
                (_get_compare_tag_columns self other_opts) bam1 bam2 H1 H2 Ho1 Ho2).
  unfold _assert_contents_equal, try_except_AssertionError, bind, lift.
  rewrite Hq.
  destruct (assert_bam_files_equal _ _ _ _ _ st) as [[[]|[]] st']; reflexivity.
Qed.

(** C9: the entry point returns normally iff the two files are equal
    under the two-pass policy and raises an [AssertionError] iff a pass
    of the policy fails its bounded diff; the message of the error names
    the two input paths, and the failure of the pass is its cause. *)
Theorem assert_contents_equal_comparison_failure (st : state) (self : BamDataFile)
    (other_path : Path) (other_opts : gmap string pyval) (bam1 bam2 : string)
    (min_mapq : pyval) :
  fs st !! path self = Some bam1 -> fs st !! other_path = Some bam2 ->
  old st (path self) -> old st other_path ->
  _get_min_mapq self other_opts = Ok min_mapq ->
  (fst (_assert_contents_equal _get_allowed_diff_lines self other_path other_opts st)
     = Ok tt <->
   two_pass bam1 bam2 (_get_allowed_diff_lines self other_opts) min_mapq
     (truthy (_get_compare_tag_columns self other_opts)) = Ok tt)
  /\ ((exists msg cause,
         fst (_assert_contents_equal _get_allowed_diff_lines self other_path
                other_opts st) = Raise (AssertionError msg cause)) <->
      (exists msg cause,
         two_pass bam1 bam2 (_get_allowed_diff_lines self other_opts) min_mapq
           (truthy (_get_compare_tag_columns self other_opts))
         = Raise (AssertionError msg cause)))
  /\ (forall msg cause,
        two_pass bam1 bam2 (_get_allowed_diff_lines self other_opts) min_mapq
          (truthy (_get_compare_tag_columns self other_opts))
        = Raise (AssertionError msg cause) ->
        fst (_assert_contents_equal _get_allowed_diff_lines self other_path
               other_opts st) =
        Raise (AssertionError
                 ("BAM files are not equal: " +:+ path_str (path self) +:+
                  " != " +:+ path_str other_path)
                 (Some (AssertionError msg cause)))).
Proof.
  intros H1 H2 Ho1 Ho2 Hq.
  rewrite (assert_contents_equal_outcome st self other_path other_opts bam1 bam2
             min_mapq H1 H2 Ho1 Ho2 Hq).
  destruct (two_pass bam1 bam2 _ min_mapq _) as [[]|[msg cause|v|m|c]]; cbn.
  all: split; [split; intros; done|].
  all: split; [|intros ? ? [= <- <-] || intros ? ?; done].
  all: split; intros (m' & c' & E); try discriminate; eauto.
Qed.

(** C4 at every input: with [sorting = NONE] the local variable [lines]
    is never bound.  The output file is opened, which leaves it empty,
    and the write raises [UnboundLocalError]. *)
Theorem bam_to_sam_without_sorting_raises (st : state) (input_bam output_sam : Path)
    (headers : bool) (min_mapq : pyval) (bam out : string) :
  fs st !! input_bam = Some bam ->
  pysam_view (view_opts headers min_mapq) bam = Some out ->
  fst (bam_to_sam input_bam output_sam headers min_mapq NONE st)
    = Raise (UnboundLocalError "lines")
  /\ fs (snd (bam_to_sam input_bam output_sam headers min_mapq NONE st))
       !! output_sam = Some "".
Proof.
  intros Hin Hview. unfold bam_to_sam, bind, tool_read. rewrite Hin, Hview. cbn.
  split; [reflexivity|]. apply lookup_insert_eq.
Qed.

End Comparison.

(** ** Tag columns and header lines *)

Section TagColumns.
Context `{Tools}.

(** C8, amended: when the converted outputs of each pass (normalised,
    filtered and sorted) are line for line identical except in the
    fields from the twelfth on, and those of pass 2 differ on more than
    [allowed_diff_lines] lines, the comparison succeeds if the resolved
    [compare_tag_columns] is false and fails if it is true. *)
Theorem tag_columns_decide_the_comparison (st : state) (file1 file2 : Path)
    (allowed_diff_lines : Z) (min_mapq compare_tag_columns : pyval)
    (bam1 bam2 sam1 sam2 full1 full2 : string) :
  fs st !! file1 = Some bam1 -> fs st !! file2 = Some bam2 ->
  old st file1 -> old st file2 ->
  convert false PyNone NAME bam1 = Ok sam1 ->
  convert false PyNone NAME bam2 = Ok sam2 ->
  convert true min_mapq COORDINATE bam1 = Ok full1 ->
  convert true min_mapq COORDINATE bam2 = Ok full2 ->
  tag_only_difference sam1 sam2 = true ->
  tag_only_difference full1 full2 = true ->
  0 <= allowed_diff_lines ->
  allowed_diff_lines < diff_lines full1 full2 ->
  (truthy compare_tag_columns = false ->
   fst (assert_bam_files_equal file1 file2 allowed_diff_lines min_mapq
          compare_tag_columns st) = Ok tt)
  /\ (truthy compare_tag_columns = true ->
      fst (assert_bam_files_equal file1 file2 allowed_diff_lines min_mapq
             compare_tag_columns st) =
      Raise (AssertionError (diff_message (diff_lines full1 full2)) None)).
Proof.
  intros H1 H2 Ho1 Ho2 C1 C2 C3 C4 T1 T2 Hpos Hmore.
  rewrite (assert_bam_files_equal_two_pass st file1 file2 allowed_diff_lines
             min_mapq compare_tag_columns bam1 bam2 H1 H2 Ho1 Ho2).
  assert (P1 : invariant_subset_pass bam1 bam2 allowed_diff_lines = Ok tt).
  { unfold invariant_subset_pass, invariant_subset_count. rewrite C1, C2. cbn.
    rewrite (projected_count_agree _ _ _ bounded_INVARIATE T1). cbn.
    apply within_ok. lia. }
  unfold two_pass. rewrite P1. cbn.
  unfold full_columns_pass, full_columns_count. rewrite C3, C4. cbn.
  split; intros ->; cbn.
  - rewrite (projected_count_agree _ _ _ bounded_ALL T2). cbn.
    apply within_ok. lia.
  - unfold within. by rewrite (proj2 (Z.ltb_lt _ _) Hmore).
Qed.

(** What keeps the header block in place when there is a data line: the
    scan stops at the first line that is not a header. *)
Lemma header_scan_data start i hdrs d rest :
  Forall (fun l => startswith_at l = true) hdrs -> startswith_at d = false ->
  header_scan start i (hdrs ++ d :: rest) = (i + List.length hdrs)%nat.
Proof.
  intros Hh Hd. revert i. induction Hh as [|h hdrs Hh _ IH]; intros i; simpl.
  - rewrite Hd. simpl. lia.
  - rewrite Hh. simpl. rewrite IH. lia.
Qed.

(** Without a data line the scan never leaves the loop. *)
Lemma header_scan_no_data start i lines :
  Forall (fun l => startswith_at l = true) lines ->
  header_scan start i lines = start.
Proof.
  intros Hh. revert i. induction Hh as [|h hdrs Hh _ IH]; intros i; simpl;
    [reflexivity|]. rewrite Hh. simpl. apply IH.
Qed.

Lemma join_app a b : join (a ++ b) = join a +:+ join b.
Proof.
  induction a as [|x a IH]; simpl; [reflexivity|].
  unfold join in *. simpl. by rewrite IH, append_assoc_s.
Qed.

Lemma append_nil_r_s (a : string) : a +:+ "" = a.
Proof. induction a as [|x a IH]; simpl; [reflexivity|]. by rewrite IH. Qed.

(** With at least one data line the headers stay in front, in their
    order, and only the data lines go through [sort]. *)
Lemma convert_keeps_headers min_mapq sorting bam out hdrs d rest :
  sorting <> NONE ->
  pysam_view (view_opts true min_mapq) bam = Some out ->
  splitlines (re_sub_unset (rstrip out)) = hdrs ++ d :: rest ->
  Forall (fun l => startswith_at l = true) hdrs -> startswith_at d = false ->
  convert true min_mapq sorting bam =
  rbind (of_tool "sort" (unix_sort (sort_cols sorting) (join (d :: rest))))
    (fun sorted => Ok (join hdrs +:+ strip sorted)).
Proof.
  intros Hs Hv Hl Hh Hd. unfold convert, header_end. rewrite Hv. cbn. rewrite Hl.
  rewrite (header_scan_data 0 0 hdrs d rest Hh Hd). simpl Nat.add.
  rewrite take_app_length, drop_app_length.
  destruct sorting; [done| |];
    (destruct (unix_sort _ _); cbn; [|reflexivity];
     rewrite join_app; unfold join at 2; simpl; by rewrite append_nil_r_s).
Qed.

Lemma join_splitlines s : join (splitlines s) = s.
Proof.
  induction s as [|c s IH]; [reflexivity|]. simpl.
  destruct (is_linebreak c && negb (Ascii.eqb c "013" && starts_with_lf s)).
  - unfold join in *. simpl. by rewrite IH.
  - destruct (splitlines s) as [|ln lns]; unfold join in *; simpl in *; by rewrite <- IH.
Qed.

(** Without a data line the header lines themselves go through [sort]. *)
Lemma convert_sorts_headers_without_data min_mapq sorting bam out :
  sorting <> NONE ->
  pysam_view (view_opts true min_mapq) bam = Some out ->
  Forall (fun l => startswith_at l = true) (splitlines (re_sub_unset (rstrip out))) ->
  convert true min_mapq sorting bam =
  rbind (of_tool "sort" (unix_sort (sort_cols sorting) (re_sub_unset (rstrip out))))
    (fun sorted => Ok (strip sorted)).
Proof.
  intros Hs Hv Hh. unfold convert, header_end. rewrite Hv. cbn.
  rewrite (header_scan_no_data 0 0 _ Hh). rewrite drop_0, take_0, join_splitlines.
  destruct sorting; [done| |];
    (destruct (unix_sort _ _); cbn; [|reflexivity];
     unfold join; simpl; by rewrite append_nil_r_s).
Qed.

End TagColumns.

(** ** The column projector *)

Lemma all_chars_impl (p q : ascii -> bool) s :
  (forall c, p c = true -> q c = true) ->
  all_chars p s = true -> all_chars q s = true.
Proof.
  intros Hpq. induction s as [|c s IH]; simpl; [done|].
  rewrite !andb_true_iff. intros [Hc Hs]. auto.
Qed.

Lemma split_on_nonempty d s : split_on d s <> [].
Proof.
  destruct s as [|c s]; simpl; [discriminate|].
  destruct (Ascii.eqb c d); [discriminate|]. by destruct (split_on d s).
Qed.

(** A text is made of the characters of its parts and of the separator. *)
Lemma split_on_all_chars d p s :
  p d = true -> Forall (fun x => all_chars p x = true) (split_on d s) ->
  all_chars p s = true.
Proof.
  intros Hd. induction s as [|c s IH]; [reflexivity|]. simpl.
  destruct (Ascii.eqb_spec c d) as [->|Hc].
  - intros Hall. inversion Hall; subst. rewrite Hd. simpl. auto.
  - pose proof (split_on_nonempty d s) as Hn.
    destruct (split_on d s) as [|f fs]; [done|].
    intros Hall. inversion Hall as [|? ? Hf Hfs]; subst. simpl in Hf.
    apply andb_true_iff in Hf as [Hpc Hf]. rewrite Hpc. simpl.
    apply IH. by constructor.
Qed.

Lemma parse_field_plain s k : parse_field s = Some k -> all_chars is_plain s = true.
Proof.
  unfold parse_field, parse_nat. destruct s as [|c s]; [discriminate|].
  destruct (all_chars is_digit (String c s)) eqn:E; [|discriminate].
  intros _. revert E. apply all_chars_impl.
  intros x. unfold is_digit, is_plain. by intros ->.
Qed.

Lemma parse_range_plain item r :
  parse_range item = Some r -> all_chars is_plain item = true.
Proof.
  unfold parse_range. intros Hp. apply (split_on_all_chars "-"); [reflexivity|].
  destruct (split_on "-" item) as [|n [|hi [|]]]; try discriminate.
  - destruct (parse_field n) eqn:E; [|discriminate].
    repeat constructor. by eapply parse_field_plain.
  - destruct (String.eqb n "") eqn:En; destruct (String.eqb hi "") eqn:Eh;
      try discriminate.
    + apply String.eqb_eq in En. subst n.
      destruct (parse_field hi) eqn:E; [|discriminate].
      repeat constructor. by eapply parse_field_plain.
    + apply String.eqb_eq in Eh. subst hi.
      destruct (parse_field n) eqn:E; [|discriminate].
      repeat constructor. by eapply parse_field_plain.
    + destruct (parse_field n) eqn:E1; [|discriminate].
      destruct (parse_field hi) eqn:E2; [|discriminate].
      repeat constructor; by eapply parse_field_plain.
Qed.

Lemma parse_ranges_plain items rs :
  parse_ranges items = Some rs -> Forall (fun x => all_chars is_plain x = true) items.
Proof.
  revert rs. induction items as [|item items IH]; intros rs; [constructor|]. simpl.
  destruct (parse_range item) eqn:E; [|discriminate].
  destruct (parse_ranges items) eqn:E'; [|discriminate].
  intros _. constructor; [by eapply parse_range_plain|by eapply IH].
Qed.

(** A column list that [cut] accepts is a plain word: it reaches [cut] as
    the module wrote it. *)
Lemma column_list_plain columns ranges :
  parse_ranges (split_on "," columns) = Some ranges -> plain_word columns = true.
Proof.
  intros Hp. destruct columns as [|c r]; [by vm_compute in Hp|].
  unfold plain_word. apply (split_on_all_chars ","); [reflexivity|].
  by eapply parse_ranges_plain.
Qed.

Lemma select_fields_numbered ranges j fs :
  select_fields ranges (N.of_nat (S j)) fs
  = map snd (List.filter (fun nf => in_ranges ranges (fst nf))
               (combine (map (fun k => N.of_nat (S k)) (seq j (List.length fs))) fs)).
Proof.
  revert j. induction fs as [|f fs IH]; intros j; [reflexivity|].
  cbn [select_fields List.length seq map combine List.filter fst].
  rewrite <- (Nat2N.inj_succ (S j)), IH.
  by destruct (in_ranges ranges (N.of_nat (S j))).
Qed.

(** The fields [cut] prints are those whose number is in the list. *)
Lemma select_fields_matching ranges fs :
  select_fields ranges 1 fs = matching_fields (in_ranges ranges) fs.
Proof. exact (select_fields_numbered ranges 0 fs). Qed.

Lemma cut_line_whole ranges line : free "009" line -> cut_line ranges line = line.
Proof. intros Hf. unfold cut_line. by rewrite (fields_free line Hf). Qed.

Lemma cut_line_fields ranges line :
  ~ free "009" line ->
  cut_line ranges line
  = join_with TAB (matching_fields (in_ranges ranges) (fields line)).
Proof.
  intros Hf. unfold cut_line. rewrite <- select_fields_matching.
  destruct (fields line) as [|f [|g fs]] eqn:F; try reflexivity.
  exfalso. apply Hf. by apply (fields_single line f).
Qed.

Section Projection.
Context `{Tools}.

Lemma make_comparable_run st inpath output columns ranges text :
  fs st !! inpath = Some text -> file_word (path_str inpath) = true ->
  parse_ranges (split_on "," columns) = Some ranges ->
  make_comparable columns inpath output st
  = (Ok tt,
     mkState (<[output := unlines (map (cut_line ranges) (unix_lines text))]> (fs st))
       (next_tmp st)).
Proof.
  intros Hin Hw Hp. unfold make_comparable, bind.
  erewrite cat_pipe_run; [|exact Hw|by eapply column_list_plain|exact Hin].
  unfold cut_f. rewrite Hp. reflexivity.
Qed.

(** C6, amended: [make_comparable] selects fields by their number,
    counted from 1, from TAB-delimited text.  For every column list that
    [cut] accepts it writes one line for every line of its input, in the
    order of the input: a line without a TAB whole, of any other line the
    fields whose number is in the list, joined by TAB.  With the list
    [1,2,5] a line of six fields a, b, c, d, e, f gives a, b, e, and with
    the list [1-3] it gives a, b, c. *)
Theorem column_projection_of_tab_delimited_text (st : state) (inpath output : Path)
    (text : string) :
  fs st !! inpath = Some text ->
  file_word (path_str inpath) = true ->
  (forall columns ranges,
     parse_ranges (split_on "," columns) = Some ranges ->
     exists out,
       make_comparable columns inpath output st
       = (Ok tt, mkState (<[output := out]> (fs st)) (next_tmp st))
       /\ List.length (unix_lines out) = List.length (unix_lines text)
       /\ forall i line,
            unix_lines text !! i = Some line ->
            (free "009" line -> unix_lines out !! i = Some line)
            /\ (~ free "009" line ->
                unix_lines out !! i
                = Some (join_with TAB
                          (matching_fields (in_ranges ranges) (fields line)))))
  /\ exists out125 out13,
       fs (snd (make_comparable "1,2,5" inpath output st)) !! output = Some out125
       /\ fs (snd (make_comparable "1-3" inpath output st)) !! output = Some out13
       /\ forall i a b c d e f,
            Forall (free "009") [a; b; c; d; e; f] ->
            unix_lines text !! i = Some (join_with TAB [a; b; c; d; e; f]) ->
            unix_lines out125 !! i = Some (join_with TAB [a; b; e])
            /\ unix_lines out13 !! i = Some (join_with TAB [a; b; c]).
Proof.
  intros Hin Hw.
  assert (General : forall columns ranges,
     parse_ranges (split_on "," columns) = Some ranges ->
     exists out,
       make_comparable columns inpath output st
       = (Ok tt, mkState (<[output := out]> (fs st)) (next_tmp st))
       /\ List.length (unix_lines out) = List.length (unix_lines text)
       /\ forall i line,
            unix_lines text !! i = Some line ->
            (free "009" line -> unix_lines out !! i = Some line)
            /\ (~ free "009" line ->
                unix_lines out !! i
                = Some (join_with TAB
                          (matching_fields (in_ranges ranges) (fields line))))).
  { intros columns ranges Hp.
    exists (unlines (map (cut_line ranges) (unix_lines text))).
    split; [by apply make_comparable_run|].
    rewrite unix_lines_cut. split; [apply length_map|].
    intros i line Hl. rewrite lookup_map, Hl. cbn.
    split; intros Hf; f_equal; [by apply cut_line_whole|by apply cut_line_fields]. }
  split; [exact General|].
  destruct (General "1,2,5" [(1, Some 1); (2, Some 2); (5, Some 5)]%N eq_refl)
    as (out125 & E125 & _ & L125).
  destruct (General "1-3" [(1, Some 3)]%N eq_refl) as (out13 & E13 & _ & L13).
  exists out125, out13. rewrite E125, E13. cbn [snd fs].
  split; [apply lookup_insert_eq|]. split; [apply lookup_insert_eq|].
  intros i a b c d e f Hfs Hl.
  assert (F : fields (join_with TAB [a; b; c; d; e; f]) = [a; b; c; d; e; f])
    by (by apply fields_join_with).
  assert (Hnf : ~ free "009" (join_with TAB [a; b; c; d; e; f])).
  { intros Hf. apply fields_free in Hf. rewrite F in Hf. discriminate. }
  split.
  - rewrite (proj2 (L125 i _ Hl) Hnf), F. reflexivity.
  - rewrite (proj2 (L13 i _ Hl) Hnf), F. reflexivity.
Qed.

End Projection.

(** ** Runs on the example files *)

Import Examples.

(** C3 at a file with a header and no reads: with [headers=True] and
    [sorting=COORDINATE] the converted text is the two header lines, and
    the output holds them in the opposite order. *)
Theorem header_only_file_is_reordered :
  rstrip <$> Reference.samtools_view (view_opts true PyNone) bam_header_only
    = Some (hd_line +:+ NL +:+ sq_line)
  /\ splitlines (hd_line +:+ NL +:+ sq_line) = [hd_line +:+ NL; sq_line]
  /\ header_scan 0 0 [hd_line +:+ NL; sq_line] = 0%nat
  /\ fst (bam_to_sam (H := Reference.tools) (UserPath "header.bam")
            (UserPath "out.sam") true PyNone COORDINATE files) = Ok tt
  /\ fs (snd (bam_to_sam (H := Reference.tools) (UserPath "header.bam")
                (UserPath "out.sam") true PyNone COORDINATE files))
       !! UserPath "out.sam" = Some (sq_line +:+ NL +:+ hd_line).
Proof. repeat split; by vm_compute. Qed.

Lemma without_sorting_witness :
  fs files !! UserPath "a.bam" = Some bam_a
  /\ fst (bam_to_sam (H := Reference.tools) (UserPath "a.bam") (UserPath "out.sam")
            true PyNone NONE files) = Raise (UnboundLocalError "lines")
  /\ fs (snd (bam_to_sam (H := Reference.tools) (UserPath "a.bam")
                (UserPath "out.sam") true PyNone NONE files))
       !! UserPath "out.sam" = Some "".
Proof.
  split; [by vm_compute|].
  apply (bam_to_sam_without_sorting_raises (H := Reference.tools) files
           (UserPath "a.bam") (UserPath "out.sam") true PyNone bam_a bam_a).
  - by vm_compute.
  - by vm_compute.
Defined.

(** The file [six.tsv] holds the line a, b, c, d, e, f. *)
Lemma column_projection_witness :
  fs files !! UserPath "six.tsv" = Some six_columns
  /\ exists out125 out13,
       fs (snd (make_comparable (H := Reference.tools) "1,2,5" (UserPath "six.tsv")
                  (UserPath "out") files)) !! UserPath "out" = Some out125
       /\ fs (snd (make_comparable (H := Reference.tools) "1-3" (UserPath "six.tsv")
                     (UserPath "out") files)) !! UserPath "out" = Some out13
       /\ unix_lines out125 !! 0%nat = Some (row ["a"; "b"; "e"])
       /\ unix_lines out13 !! 0%nat = Some (row ["a"; "b"; "c"]).
Proof.
  split; [by vm_compute|].
  destruct (proj2 (column_projection_of_tab_delimited_text (H := Reference.tools)
                     files (UserPath "six.tsv") (UserPath "out") six_columns
                     ltac:(by vm_compute) ltac:(by vm_compute)))
    as (out125 & out13 & E125 & E13 & Hl).
  exists out125, out13. split; [exact E125|]. split; [exact E13|].
  apply (Hl 0%nat "a" "b" "c" "d" "e" "f").
  - repeat constructor.
  - by vm_compute.
Defined.

(** C6 as stated fails on text delimited by spaces: the line has no TAB
    and is printed whole. *)
Lemma column_projection_of_spaces_counterexample :
  fs files !! UserPath "spaces.txt" = Some "a b c d e f"
  /\ fs (snd (make_comparable (H := Reference.tools) "1,2,5" (UserPath "spaces.txt")
                (UserPath "out") files))
       !! UserPath "out" = Some ("a b c d e f" +:+ NL)
  /\ fs (snd (make_comparable (H := Reference.tools) "1,2,5" (UserPath "spaces.txt")
                (UserPath "out") files))
       !! UserPath "out" <> Some ("a b e" +:+ NL)
  /\ fs (snd (make_comparable (H := Reference.tools) "1,2,5" (UserPath "spaces.txt")
                (UserPath "out") files))
       !! UserPath "out" <> Some "a b e".
Proof. repeat split; by vm_compute. Qed.

(** C8 as stated fails on two files whose converted texts differ in the
    tag column on both lines, the tags of two reads being exchanged: the
    sort brings the two texts to the same order and the comparison
    succeeds although [compare_tag_columns] is true. *)
Lemma exchanged_tags_counterexample :
  Reference.samtools_view (view_opts true (PyInt 0)) bam_swap1 = Some bam_swap1
  /\ Reference.samtools_view (view_opts true (PyInt 0)) bam_swap2 = Some bam_swap2
  /\ re_sub_unset (rstrip bam_swap1) = rstrip bam_swap1
  /\ re_sub_unset (rstrip bam_swap2) = rstrip bam_swap2
  /\ tag_only_difference (rstrip bam_swap1) (rstrip bam_swap2) = true
  /\ diff_lines (rstrip bam_swap1) (rstrip bam_swap2) = 2
  /\ fst (assert_bam_files_equal (H := Reference.tools) (UserPath "swap1.bam")
            (UserPath "swap2.bam") 0 (PyInt 0) (PyBool true) files) = Ok tt.
Proof. repeat split; by vm_compute. Qed.

(** Read groups that differ in their random suffix only compare equal,
    tag columns included, with no tolerance. *)
Lemma random_read_groups_compare_equal :
  diff_lines bam_group1 bam_group2 = 1
  /\ fst (assert_bam_files_equal (H := Reference.tools) (UserPath "group1.bam")
            (UserPath "group2.bam") 0 (PyInt 0) (PyBool true) files) = Ok tt.
Proof. split; by vm_compute. Qed.

(** The converted outputs of the two files: the reads sorted by name in
    pass 1, the whole text in pass 2, without the final line feed. *)
Lemma tag_columns_witness :
  tag_only_difference (rstrip bam_tag1) (rstrip bam_tag2) = true
  /\ 0 < diff_lines (rstrip bam_tag1) (rstrip bam_tag2)
  /\ fst (assert_bam_files_equal (H := Reference.tools) (UserPath "tag1.bam")
            (UserPath "tag2.bam") 0 (PyInt 0) PyNone files) = Ok tt
  /\ fst (assert_bam_files_equal (H := Reference.tools) (UserPath "tag1.bam")
            (UserPath "tag2.bam") 0 (PyInt 0) (PyBool true) files)
     = Raise (AssertionError
                (diff_message (diff_lines (rstrip bam_tag1) (rstrip bam_tag2))) None).
Proof.
  split; [by vm_compute|]. split; [by vm_compute|].
  pose (reads1 := rstrip (unlines [read "r1" "100" "30" "ACGT" "NM:i:0";
                                   read "r2" "200" "30" "ACGT" "NM:i:0"])).
  pose (reads2 := rstrip (unlines [read "r1" "100" "30" "ACGT" "NM:i:1";
                                   read "r2" "200" "30" "ACGT" "NM:i:0"])).
  split.
  - refine (proj1 (tag_columns_decide_the_comparison (H := Reference.tools) files
                     (UserPath "tag1.bam") (UserPath "tag2.bam") 0 (PyInt 0) PyNone
                     bam_tag1 bam_tag2 reads1 reads2 (rstrip bam_tag1) (rstrip bam_tag2)
                     _ _ _ _ _ _ _ _ _ _ _ _) _);
      try exact I; try lia; by vm_compute.
  - refine (proj2 (tag_columns_decide_the_comparison (H := Reference.tools) files
                     (UserPath "tag1.bam") (UserPath "tag2.bam") 0 (PyInt 0)
                     (PyBool true)
                     bam_tag1 bam_tag2 reads1 reads2 (rstrip bam_tag1) (rstrip bam_tag2)
                     _ _ _ _ _ _ _ _ _ _ _ _) _);
      try exact I; try lia; by vm_compute.
Defined.

Lemma two_passes_witness :
  fs files !! UserPath "a.bam" = Some bam_a
  /\ fs files !! UserPath "b.bam" = Some bam_b
  /\ fst (assert_bam_files_equal (H := Reference.tools) (UserPath "a.bam")
            (UserPath "b.bam") 0 (PyInt 10) (PyBool false) files)
     = two_pass (H := Reference.tools) bam_a bam_b 0 (PyInt 10) false.
Proof.
  split; [by vm_compute|]. split; [by vm_compute|].
  refine (proj1 (assert_bam_files_equal_two_passes (H := Reference.tools) files
                   (UserPath "a.bam") (UserPath "b.bam") 0 (PyInt 10) (PyBool false)
                   bam_a bam_b _ _ _ _)); try exact I; by vm_compute.
Defined.

(** Each pass counts one differing line, two in all: with the tolerance
    one the comparison succeeds, with the tolerance zero it fails in
    pass 1. *)
Lemma tolerance_witness :
  invariant_subset_count (H := Reference.tools) bam_a bam_b = Ok 1
  /\ full_columns_count (H := Reference.tools) bam_a bam_b (PyInt 10) false = Ok 1
  /\ fst (assert_bam_files_equal (H := Reference.tools) (UserPath "a.bam")
            (UserPath "b.bam") 1 (PyInt 10) (PyBool false) files) = Ok tt
  /\ fst (assert_bam_files_equal (H := Reference.tools) (UserPath "a.bam")
            (UserPath "b.bam") 0 (PyInt 10) (PyBool false) files)
     = Raise (AssertionError (diff_message 1) None).
Proof.
  split; [by vm_compute|]. split; [by vm_compute|]. split.
  - refine (proj2 (proj2 (proj2 (tolerance_applies_to_each_pass
                     (H := Reference.tools) files
                     (UserPath "a.bam") (UserPath "b.bam") 1 (PyInt 10) (PyBool false)
                     bam_a bam_b 1 1 _ _ _ _ _ _))) _ _);
      try exact I; by vm_compute.
  - refine (proj1 (proj2 (tolerance_applies_to_each_pass
                     (H := Reference.tools) files
                     (UserPath "a.bam") (UserPath "b.bam") 0 (PyInt 10) (PyBool false)
                     bam_a bam_b 1 1 _ _ _ _ _ _)) _);
      try exact I; try lia; by vm_compute.
Defined.

Lemma default_tag_columns_witness :
  _get_compare_tag_columns side_A ∅ = PyNone
  /\ truthy (_get_compare_tag_columns side_A ∅) = false.
Proof.
  refine (let W := default_excludes_tag_columns (H := Reference.tools) side_A ∅
                      files (UserPath "a.bam") (UserPath "b.bam") 0 (PyInt 10)
                      bam_a bam_b _ _ _ _ _ _ in
          conj (proj1 W) (proj1 (proj2 (proj2 W))));
    try exact I; by vm_compute.
Defined.

Lemma comparison_failure_witness :
  _get_min_mapq side_A opts_B = Ok (PyInt 20)
  /\ fst (_assert_contents_equal (H := Reference.tools) max_allowed_diff_lines
            side_A (UserPath "b.bam") opts_B files) =
     Raise (AssertionError "BAM files are not equal: a.bam != b.bam"
              (Some (AssertionError "1 lines were different" None))).
Proof.
  split; [by vm_compute|].
  refine (proj2 (proj2 (assert_contents_equal_comparison_failure
                          (H := Reference.tools) max_allowed_diff_lines files side_A
                          (UserPath "b.bam") opts_B bam_a bam_b (PyInt 20)
                          _ _ _ _ _)) "1 lines were different" None _);
    try exact I; by vm_compute.
Defined.

(** * Further properties *)

(** ** Where the module writes *)

Lemma confined_bind {A B} P lo (V : A -> Prop) (W : B -> Prop) (m : M A) (k : A -> M B) :
  confined P lo V m -> (forall a, V a -> confined P lo W (k a)) ->
  confined P lo W (bind m k).
Proof.
  intros Hm Hk st Hlo. destruct (Hm st Hlo) as (Hn & Hf & Hv).
  unfold bind. destruct (m st) as [[a|e] st1]; simpl in *.
  - destruct (Hk a (Hv a eq_refl) st1 ltac:(lia)) as (Hn' & Hf' & Hv').
    split; [lia|]. split; [|exact Hv'].
    intros p HP Hb. by rewrite Hf', Hf.
  - split; [exact Hn|]. split; [exact Hf|]. intros a [=].
Qed.

(** A computation that leaves the state as it is. *)
Lemma confined_pure {A} P lo (m : M A) :
  (forall st, snd (m st) = st) -> confined P lo (fun _ => True) m.
Proof. intros Hm st _. rewrite Hm. auto. Qed.

Lemma confined_tool_read P lo cmd p : confined P lo (fun _ => True) (tool_read cmd p).
Proof. apply confined_pure. intros st. unfold tool_read. by destruct (fs st !! p). Qed.

Lemma confined_tool_result P lo cmd out :
  confined P lo (fun _ => True) (tool_result cmd out).
Proof. apply confined_pure. intros st. by destruct out. Qed.

Lemma confined_tempdir P lo : confined P lo (fun temp => (lo <= temp)%nat) tempdir.
Proof.
  intros st Hlo. unfold tempdir. simpl. split; [lia|]. split; [done|].
  intros a [= <-]. exact Hlo.
Qed.

Lemma confined_write_file P lo p text :
  ~ (P p /\ before lo p) -> confined P lo (fun _ => True) (write_file p text).
Proof.
  intros Hp st _. unfold write_file. simpl. split; [lia|]. split; [|done].
  intros q HP Hb. apply lookup_insert_ne. intros ->. auto.
Qed.

Lemma not_before_temp lo temp name : (lo <= temp)%nat -> ~ before lo (TempPath temp name).
Proof. simpl. lia. Qed.

Section Writes.
Context `{Tools}.

Lemma confined_cat_pipe P lo path tool args plain run :
  confined P lo (fun _ => True) (cat_pipe path tool args plain run).
Proof. apply confined_pure. intros st. apply cat_pipe_state. Qed.

Lemma confined_bam_to_sam P lo input_bam output_sam headers min_mapq sorting :
  ~ (P output_sam /\ before lo output_sam) ->
  confined P lo (fun _ => True)
    (bam_to_sam input_bam output_sam headers min_mapq sorting).
Proof.
  intros Hout. unfold bam_to_sam.
  eapply confined_bind; [apply confined_tool_read|]. intros bam _.
  eapply confined_bind; [apply confined_tool_result|]. intros out _.
  eapply confined_bind with (V := fun _ => True).
  - destruct sorting.
    + by apply confined_pure.
    + eapply confined_bind; [apply confined_tempdir|]. intros temp Htemp.
      eapply confined_bind.
      { apply confined_write_file. intros [_ Hb]. exact (not_before_temp _ _ _ Htemp Hb). }
      intros _ _. eapply confined_bind; [apply confined_cat_pipe|]. intros sorted _.
      by apply confined_pure.
    + eapply confined_bind; [apply confined_tempdir|]. intros temp Htemp.
      eapply confined_bind.
      { apply confined_write_file. intros [_ Hb]. exact (not_before_temp _ _ _ Htemp Hb). }
      intros _ _. eapply confined_bind; [apply confined_cat_pipe|]. intros sorted _.
      by apply confined_pure.
  - intros lines _. eapply confined_bind; [by apply confined_write_file|].
    intros _ _. destruct lines; [by apply confined_write_file|by apply confined_pure].
Qed.

Lemma confined_diff_default P lo file1 file2 :
  confined P lo (fun _ => True) (diff_default file1 file2).
Proof.
  unfold diff_default.
  eapply confined_bind; [apply confined_tool_read|]. intros t1 _.
  eapply confined_bind; [apply confined_tool_read|]. intros t2 _.
  by apply confined_pure.
Qed.

Lemma confined_make_comparable P lo columns inpath output :
  ~ (P output /\ before lo output) ->
  confined P lo (fun _ => True) (make_comparable columns inpath output).
Proof.
  intros Hout. unfold make_comparable.
  eapply confined_bind; [apply confined_cat_pipe|]. intros o _.
  by apply confined_write_file.
Qed.

Lemma confined_diff_bam_columns P lo file1 file2 columns :
  confined P lo (fun _ => True) (diff_bam_columns file1 file2 columns).
Proof.
  unfold diff_bam_columns.
  eapply confined_bind; [apply confined_tempdir|]. intros temp Htemp.
  eapply confined_bind.
  { apply confined_make_comparable. intros [_ Hb]. exact (not_before_temp _ _ _ Htemp Hb). }
  intros _ _. eapply confined_bind.
  { apply confined_make_comparable. intros [_ Hb]. exact (not_before_temp _ _ _ Htemp Hb). }
  intros _ _. apply confined_diff_default.
Qed.

Lemma confined_assert_text_files_equal P lo file1 file2 allowed diff_fn :
  confined P lo (fun _ => True) (diff_fn file1 file2) ->
  confined P lo (fun _ => True) (assert_text_files_equal file1 file2 allowed diff_fn).
Proof.
  intros Hd. unfold assert_text_files_equal.
  eapply confined_bind; [exact Hd|]. intros n _.
  destruct (allowed <? n); by apply confined_pure.
Qed.

Lemma confined_assert_bam_files_equal lo file1 file2 allowed min_mapq compare_tag_columns :
  confined (fun _ => True) lo (fun _ => True)
    (assert_bam_files_equal file1 file2 allowed min_mapq compare_tag_columns).
Proof.
  unfold assert_bam_files_equal.
  eapply confined_bind; [apply confined_tempdir|]. intros temp Htemp.
  assert (Hout : forall name, ~ (True /\ before lo (TempPath temp name))).
  { intros name [_ Hb]. exact (not_before_temp _ _ _ Htemp Hb). }
  eapply confined_bind; [by apply confined_bam_to_sam|]. intros _ _.
  eapply confined_bind; [by apply confined_bam_to_sam|]. intros _ _.
  eapply confined_bind.
  { apply confined_assert_text_files_equal. apply confined_diff_bam_columns. }
  intros _ _.
  eapply confined_bind; [by apply confined_bam_to_sam|]. intros _ _.
  eapply confined_bind; [by apply confined_bam_to_sam|]. intros _ _.
  apply confined_assert_text_files_equal.
  destruct (truthy compare_tag_columns);
    [apply confined_diff_default|apply confined_diff_bam_columns].
Qed.

End Writes.

(** ** The header block *)

Lemma header_scan_cases start i lines :
  (Forall (fun l => startswith_at l = true) lines /\ header_scan start i lines = start)
  \/ exists k d,
       header_scan start i lines = (i + k)%nat
       /\ Forall (fun l => startswith_at l = true) (take k lines)
       /\ lines !! k = Some d /\ startswith_at d = false.
Proof.
  revert i. induction lines as [|l lines IH]; intros i; simpl.
  - left. by split.
  - destruct (startswith_at l) eqn:Hl; simpl.
    + destruct (IH (S i)) as [[Hall E]|(k & d & E & Hh & Hk & Hd)].
      * left. split; [by constructor|exact E].
      * right. exists (S k), d. split; [lia|]. split; [simpl; by constructor|].
        by split.
    + right. exists 0%nat, l. split; [lia|]. split; [constructor|]. by split.
Qed.

(** X5: the lines [bam_to_sam] keeps out of the sort are header lines
    only, and together with the lines handed to [sort] they are the whole
    text: no line is lost or doubled.  With [headers] set and a data line
    in the text, the lines handed to [sort] start at a data line. *)
Theorem header_block_partition (headers : bool) (sam : string) :
  Forall (fun l => startswith_at l = true)
    (take (header_end headers (splitlines sam)) (splitlines sam))
  /\ join (take (header_end headers (splitlines sam)) (splitlines sam))
     +:+ join (drop (header_end headers (splitlines sam)) (splitlines sam)) = sam
  /\ (headers = true ->
      forall d, d ∈ splitlines sam -> startswith_at d = false ->
      exists d', splitlines sam !! header_end headers (splitlines sam) = Some d'
                 /\ startswith_at d' = false).
Proof.
  split; [|split].
  - unfold header_end. destruct headers; [|constructor].
    destruct (header_scan_cases 0 0 (splitlines sam))
      as [[_ ->]|(k & d & -> & Hh & _)]; [constructor|exact Hh].
  - rewrite <- join_app, take_drop. apply join_splitlines.
  - intros -> d Hin Hd. unfold header_end.
    destruct (header_scan_cases 0 0 (splitlines sam))
      as [[Hall _]|(k & d' & -> & _ & Hk & Hd')].
    + rewrite Forall_forall in Hall. rewrite (Hall d Hin) in Hd. discriminate.
    + eauto.
Qed.

(** ** Running a sequence *)

Lemma bind_run {A B} (m : M A) (k : A -> M B) st a st1 :
  m st = (Ok a, st1) -> bind m k st = k a st1.
Proof. intros E. unfold bind. by rewrite E. Qed.

Lemma bind_inv_ok {A B} (m : M A) (k : A -> M B) st b st2 :
  bind m k st = (Ok b, st2) ->
  exists a st1, m st = (Ok a, st1) /\ k a st1 = (Ok b, st2).
Proof.
  unfold bind. destruct (m st) as [[a|e] st1]; [eauto|discriminate].
Qed.

Lemma bind3_raise {A B C D} (m1 : M A) (m2 : M B) (m3 : M C) (k : M D) st e s :
  (m1 ;;; m2 ;;; m3) st = (Raise e, s) ->
  (m1 ;;; m2 ;;; m3 ;;; k) st = (Raise e, s).
Proof.
  unfold bind. destruct (m1 st) as [[a|e1] s1]; [|by intros [= -> ->]].
  destruct (m2 s1) as [[b|e2] s2]; [|by intros [= -> ->]].
  destruct (m3 s2) as [[c|e3] s3]; [discriminate|by intros [= -> ->]].
Qed.

Section Artifacts.
Context `{Tools}.

Lemma conversions_run st n file1 file2 name1 name2 headers min_mapq sorting
    bam1 bam2 sam1 sam2 {A} (k : M A) :
  all_chars is_plain (stem (TempPath n name1)) = true ->
  all_chars is_plain (stem (TempPath n name2)) = true ->
  name1 <> name2 -> (n < next_tmp st)%nat ->
  before n file1 -> before n file2 ->
  fs st !! file1 = Some bam1 -> fs st !! file2 = Some bam2 ->
  convert headers min_mapq sorting bam1 = Ok sam1 ->
  convert headers min_mapq sorting bam2 = Ok sam2 ->
  exists st',
    (bam_to_sam file1 (TempPath n name1) headers min_mapq sorting ;;;
     bam_to_sam file2 (TempPath n name2) headers min_mapq sorting ;;; k) st = k st'
    /\ (n < next_tmp st')%nat
    /\ fs st' !! file1 = Some bam1 /\ fs st' !! file2 = Some bam2
    /\ fs st' !! TempPath n name1 = Some sam1
    /\ fs st' !! TempPath n name2 = Some sam2.
Proof.
  intros Hw1 Hw2 Hne Hn Hb1 Hb2 H1 H2 C1 C2.
  destruct (conversions_yield st n file1 file2 name1 name2 headers min_mapq
              sorting bam1 bam2 Hw1 Hw2 Hne Hn Hb1 Hb2 H1 H2) as (st' & E & Q).
  rewrite C1, C2 in E, Q. cbn in E, Q.
  destruct Q as (Hn' & H1' & H2' & Hout). destruct (Hout sam1 sam2 eq_refl eq_refl).
  exists st'. split; [|done].
  apply bind_inv_ok in E as ([] & s1 & E1 & E2).
  rewrite (bind_run _ _ _ _ _ E1). by rewrite (bind_run _ _ _ _ _ E2).
Qed.

(** X11: the converted files are kept, whatever the outcome: once the
    two conversions of pass 1 have succeeded their outputs are in the
    directory of the comparison at the end, and so are those of pass 2
    once pass 1 has passed and the conversions of pass 2 have
    succeeded. *)
Theorem converted_files_are_kept (st : state) (file1 file2 : Path)
    (allowed_diff_lines : Z) (min_mapq compare_tag_columns : pyval)
    (bam1 bam2 sam1 sam2 : string) :
  fs st !! file1 = Some bam1 -> fs st !! file2 = Some bam2 ->
  old st file1 -> old st file2 ->
  convert false PyNone NAME bam1 = Ok sam1 ->
  convert false PyNone NAME bam2 = Ok sam2 ->
  fs (snd (assert_bam_files_equal file1 file2 allowed_diff_lines min_mapq
             compare_tag_columns st))
    !! TempPath (next_tmp st) "all_reads_subset_columns_file1" = Some sam1
  /\ fs (snd (assert_bam_files_equal file1 file2 allowed_diff_lines min_mapq
                compare_tag_columns st))
       !! TempPath (next_tmp st) "all_reads_subset_columns_file2" = Some sam2
  /\ forall full1 full2,
       invariant_subset_pass bam1 bam2 allowed_diff_lines = Ok tt ->
       convert true min_mapq COORDINATE bam1 = Ok full1 ->
       convert true min_mapq COORDINATE bam2 = Ok full2 ->
       fs (snd (assert_bam_files_equal file1 file2 allowed_diff_lines min_mapq
                  compare_tag_columns st))
         !! TempPath (next_tmp st) "subset_reads_all_columns_file1" = Some full1
       /\ fs (snd (assert_bam_files_equal file1 file2 allowed_diff_lines min_mapq
                     compare_tag_columns st))
            !! TempPath (next_tmp st) "subset_reads_all_columns_file2" = Some full2.
Proof.
  intros H1 H2 Ho1 Ho2 C1 C2.
  set (n := next_tmp st).
  unfold assert_bam_files_equal.
  rewrite (bind_run tempdir _ st n (mkState (fs st) (S n)) eq_refl).
  destruct (conversions_run (mkState (fs st) (S n)) n file1 file2
              "all_reads_subset_columns_file1" "all_reads_subset_columns_file2"
              false PyNone NAME bam1 bam2 sam1 sam2
              (assert_text_files_equal
                 (TempPath n "all_reads_subset_columns_file1")
                 (TempPath n "all_reads_subset_columns_file2") allowed_diff_lines
                 (fun f1 f2 => diff_bam_columns f1 f2 INVARIATE_COLUMNS) ;;;
               bam_to_sam file1 (TempPath n "subset_reads_all_columns_file1") true
                 min_mapq COORDINATE ;;;
               bam_to_sam file2 (TempPath n "subset_reads_all_columns_file2") true
                 min_mapq COORDINATE ;;;
               assert_text_files_equal
                 (TempPath n "subset_reads_all_columns_file1")
                 (TempPath n "subset_reads_all_columns_file2") allowed_diff_lines
                 (if truthy compare_tag_columns then diff_default
                  else fun f1 f2 => diff_bam_columns f1 f2 ALL_COLUMNS)))
    as (s2 & -> & Hn2 & H12 & H22 & Hs1 & Hs2); try done; [simpl; lia|].
  (* what follows the first two conversions writes neither of their outputs *)
  assert (Hrest : confined
            (fun p => p <> TempPath n "subset_reads_all_columns_file1"
                      /\ p <> TempPath n "subset_reads_all_columns_file2")
            (S n) (fun _ => True)
            (assert_text_files_equal
               (TempPath n "all_reads_subset_columns_file1")
               (TempPath n "all_reads_subset_columns_file2") allowed_diff_lines
               (fun f1 f2 => diff_bam_columns f1 f2 INVARIATE_COLUMNS) ;;;
             bam_to_sam file1 (TempPath n "subset_reads_all_columns_file1") true
               min_mapq COORDINATE ;;;
             bam_to_sam file2 (TempPath n "subset_reads_all_columns_file2") true
               min_mapq COORDINATE ;;;
             assert_text_files_equal
               (TempPath n "subset_reads_all_columns_file1")
               (TempPath n "subset_reads_all_columns_file2") allowed_diff_lines
               (if truthy compare_tag_columns then diff_default
                else fun f1 f2 => diff_bam_columns f1 f2 ALL_COLUMNS))).
  { eapply confined_bind.
    { apply confined_assert_text_files_equal, confined_diff_bam_columns. }
    intros _ _. eapply confined_bind.
    { apply confined_bam_to_sam. intros [[? _] _]. done. }
    intros _ _. eapply confined_bind.
    { apply confined_bam_to_sam. intros [[_ ?] _]. done. }
    intros _ _. apply confined_assert_text_files_equal.
    destruct (truthy compare_tag_columns);
      [apply confined_diff_default|apply confined_diff_bam_columns]. }
  destruct (Hrest s2 ltac:(lia)) as (_ & Hf & _).
  split; [|split].
  - rewrite Hf; [exact Hs1| |simpl; lia]. split; discriminate.
  - rewrite Hf; [exact Hs2| |simpl; lia]. split; discriminate.
  - intros full1 full2 P1 C3 C4. clear Hrest Hf.
    destruct (projected_diff_yields s2 (TempPath n "all_reads_subset_columns_file1")
                (TempPath n "all_reads_subset_columns_file2") INVARIATE_COLUMNS
                allowed_diff_lines sam1 sam2 Hs1 Hs2)
      as (s3 & E3 & Q3);
      [unfold old; simpl; lia|unfold old; simpl; lia
      |by apply file_word_temp|by apply file_word_temp|reflexivity|].
    unfold invariant_subset_pass, invariant_subset_count in P1.
    rewrite C1, C2 in P1. cbn in P1. rewrite P1 in E3, Q3.
    destruct Q3 as (Hn3 & Hf3).
    rewrite (bind_run _ _ _ _ _ E3).
    destruct (conversions_run s3 n file1 file2
                "subset_reads_all_columns_file1" "subset_reads_all_columns_file2"
                true min_mapq COORDINATE bam1 bam2 full1 full2
                (assert_text_files_equal
                   (TempPath n "subset_reads_all_columns_file1")
                   (TempPath n "subset_reads_all_columns_file2") allowed_diff_lines
                   (if truthy compare_tag_columns then diff_default
                    else fun f1 f2 => diff_bam_columns f1 f2 ALL_COLUMNS)))
      as (s5 & -> & Hn5 & _ & _ & Hs3 & Hs4); try done;
      [lia
      |rewrite Hf3; [done|]; eapply before_old; [exact Ho1|lia]
      |rewrite Hf3; [done|]; eapply before_old; [exact Ho2|lia]
      |].
    assert (Hlast : confined (fun _ => True) (S n) (fun _ => True)
              (assert_text_files_equal
                 (TempPath n "subset_reads_all_columns_file1")
                 (TempPath n "subset_reads_all_columns_file2") allowed_diff_lines
                 (if truthy compare_tag_columns then diff_default
                  else fun f1 f2 => diff_bam_columns f1 f2 ALL_COLUMNS))).
    { apply confined_assert_text_files_equal.
      destruct (truthy compare_tag_columns);
        [apply confined_diff_default|apply confined_diff_bam_columns]. }
    destruct (Hlast s5 ltac:(lia)) as (_ & Hf5 & _).
    split; (rewrite Hf5; [done|done|simpl; lia]).
Qed.

End Artifacts.

Section Conversion.
Context `{Tools}.


(** X3: when the input file is missing or [pysam.view] fails,
    [bam_to_sam] raises the error of the reader and leaves the file system
    as it was: no output file and no directory is made. *)
Theorem bam_to_sam_reader_failure (st : state) (input_bam output_sam : Path)
    (headers : bool) (min_mapq : pyval) (sorting : Sorting) :
  match fs st !! input_bam with
  | Some bam => pysam_view (view_opts headers min_mapq) bam
  | None => None
  end = None ->
  bam_to_sam input_bam output_sam headers min_mapq sorting st
    = (Raise (ToolInvocationError "pysam.view"), st).
Proof.
  intros Hfail. unfold bam_to_sam, bind, tool_read.
  destruct (fs st !! input_bam) as [bam|]; cbn; [|reflexivity].
  by rewrite Hfail.
Qed.

(** X4: when [sort] fails, [bam_to_sam] raises its error before the
    output is opened: the output path is left as it was, and the unsorted
    data lines stay behind in the file handed to [sort].  The name of that
    file is made from the stem of the output path and pasted into the
    command line: the stem is a plain word. *)
Theorem bam_to_sam_sort_failure (st : state) (input_bam output_sam : Path)
    (headers : bool) (min_mapq : pyval) (sorting : Sorting) (bam out : string) :
  fs st !! input_bam = Some bam ->
  pysam_view (view_opts headers min_mapq) bam = Some out ->
  sorting <> NONE ->
  unix_sort (sort_cols sorting)
    (join (drop (header_end headers (splitlines (re_sub_unset (rstrip out))))
             (splitlines (re_sub_unset (rstrip out))))) = None ->
  old st output_sam ->
  all_chars is_plain (stem output_sam) = true ->
  fst (bam_to_sam input_bam output_sam headers min_mapq sorting st)
    = Raise (ToolInvocationError "sort")
  /\ fs (snd (bam_to_sam input_bam output_sam headers min_mapq sorting st))
       !! output_sam = fs st !! output_sam
  /\ fs (snd (bam_to_sam input_bam output_sam headers min_mapq sorting st))
       !! TempPath (next_tmp st) ("output_" +:+ stem output_sam +:+ ".sam")
     = Some (join (drop (header_end headers (splitlines (re_sub_unset (rstrip out))))
                     (splitlines (re_sub_unset (rstrip out))))).
Proof.
  intros Hin Hview Hs Hsort Hold Hstem.
  assert (Hfresh : forall name, TempPath (next_tmp st) name <> output_sam).
  { intros name <-. unfold old in Hold. simpl in Hold. lia. }
  unfold bam_to_sam, bind, tool_read, header_end in *. rewrite Hin, Hview. cbn.
  destruct sorting; [done| |]; cbn [sort_cols] in Hsort; cbn;
    (erewrite cat_pipe_run;
       [|by apply temp_sam_word|reflexivity|cbn; apply lookup_insert_eq]);
    rewrite Hsort; cbn;
    (split; [reflexivity|]; split; [by rewrite lookup_insert_ne|apply lookup_insert_eq]).
Qed.

Lemma cut_f_plain columns text out :
  cut_f columns text = Some out -> plain_word columns = true.
Proof.
  unfold cut_f. destruct (parse_ranges _) as [ranges|] eqn:E; [|discriminate].
  intros _. by eapply column_list_plain.
Qed.

(** X8: for two files whose names are plain words and a column list
    that [cut] accepts, [diff_bam_columns] returns the count of differing
    lines between the projections of the two files, leaves the
    projections in [cmp_file1] and [cmp_file2] of one new directory, and
    changes no existing file. *)
Theorem diff_bam_columns_counts_projections (st : state) (file1 file2 : Path)
    (columns text1 text2 cut1 cut2 : string) :
  fs st !! file1 = Some text1 -> fs st !! file2 = Some text2 ->
  old st file1 -> old st file2 ->
  file_word (path_str file1) = true -> file_word (path_str file2) = true ->
  cut_f columns text1 = Some cut1 -> cut_f columns text2 = Some cut2 ->
  fst (diff_bam_columns file1 file2 columns st) = Ok (diff_lines cut1 cut2)
  /\ fs (snd (diff_bam_columns file1 file2 columns st))
       !! TempPath (next_tmp st) "cmp_file1" = Some cut1
  /\ fs (snd (diff_bam_columns file1 file2 columns st))
       !! TempPath (next_tmp st) "cmp_file2" = Some cut2
  /\ next_tmp (snd (diff_bam_columns file1 file2 columns st)) = S (next_tmp st)
  /\ forall p, old st p ->
       fs (snd (diff_bam_columns file1 file2 columns st)) !! p = fs st !! p.
Proof.
  intros H1 H2 Ho1 Ho2 W1 W2 C1 C2.
  assert (Hfresh : forall p name, old st p -> TempPath (next_tmp st) name <> p).
  { intros p name Hold <-. unfold old in Hold. simpl in Hold. lia. }
  pose proof (cut_f_plain _ _ _ C1) as Wc.
  unfold diff_bam_columns, make_comparable, diff_default, bind, tool_read, tempdir.
  cbn. erewrite cat_pipe_run; [|exact W1|exact Wc|exact H1]. rewrite C1. cbn.
  erewrite cat_pipe_run;
    [|exact W2|exact Wc|cbn; rewrite lookup_insert_ne by auto; exact H2].
  rewrite C2. cbn.
  rewrite lookup_insert_ne by discriminate. rewrite lookup_insert_eq. cbn.
  rewrite lookup_insert_eq. cbn.
  split; [reflexivity|]. split; [by rewrite lookup_insert_ne, lookup_insert_eq|].
  split; [apply lookup_insert_eq|]. split; [reflexivity|].
  intros p Hold. by rewrite !lookup_insert_ne by auto.
Qed.

(** X21: the column list is not checked before [cut] runs: a list that
    [cut] rejects, such as one with the field number 0 or one that does
    not fit, makes [diff_bam_columns] raise the error of [cut] at its
    first file, with every existing file as it was. *)
Theorem diff_bam_columns_rejected_column_list (st : state) (file1 file2 : Path)
    (columns text1 : string) :
  fs st !! file1 = Some text1 ->
  file_word (path_str file1) = true ->
  plain_word columns = true ->
  parse_ranges (split_on "," columns) = None ->
  fst (diff_bam_columns file1 file2 columns st) = Raise (ToolInvocationError "cut")
  /\ forall p, old st p ->
       fs (snd (diff_bam_columns file1 file2 columns st)) !! p = fs st !! p.
Proof.
  intros H1 W1 Wc Hp.
  unfold diff_bam_columns, make_comparable, bind, tempdir. cbn.
  erewrite cat_pipe_run; [|exact W1|exact Wc|exact H1].
  unfold cut_f. rewrite Hp. cbn. by split.
Qed.

(** X9: [assert_bam_files_equal] changes no existing file, whatever its
    outcome: everything it writes lies in directories it makes. *)
Theorem comparison_keeps_existing_files (st : state) (file1 file2 : Path)
    (allowed_diff_lines : Z) (min_mapq compare_tag_columns : pyval) (p : Path) :
  old st p ->
  fs (snd (assert_bam_files_equal file1 file2 allowed_diff_lines min_mapq
             compare_tag_columns st)) !! p = fs st !! p.
Proof.
  intros Hold.
  destruct (confined_assert_bam_files_equal (next_tmp st) file1 file2
              allowed_diff_lines min_mapq compare_tag_columns st (le_n _))
    as (_ & Hf & _).
  by apply Hf.
Qed.

(** X10: a comparison can be repeated: run again from the state the
    first run leaves, with the files the first run wrote still in place,
    it gives the same outcome. *)
Theorem comparison_is_repeatable (st : state) (file1 file2 : Path)
    (allowed_diff_lines : Z) (min_mapq compare_tag_columns : pyval)
    (bam1 bam2 : string) :
  fs st !! file1 = Some bam1 -> fs st !! file2 = Some bam2 ->
  old st file1 -> old st file2 ->
  fst (assert_bam_files_equal file1 file2 allowed_diff_lines min_mapq
         compare_tag_columns
         (snd (assert_bam_files_equal file1 file2 allowed_diff_lines min_mapq
                 compare_tag_columns st)))
  = fst (assert_bam_files_equal file1 file2 allowed_diff_lines min_mapq
           compare_tag_columns st).
Proof.
  intros H1 H2 Ho1 Ho2.
  destruct (confined_assert_bam_files_equal (next_tmp st) file1 file2
              allowed_diff_lines min_mapq compare_tag_columns st (le_n _))
    as (Hn & Hf & _).
  rewrite (assert_bam_files_equal_two_pass st _ _ _ _ _ bam1 bam2 H1 H2 Ho1 Ho2).
  apply assert_bam_files_equal_two_pass.
  - by rewrite Hf.
  - by rewrite Hf.
  - eapply before_old; [exact Ho1|exact Hn].
  - eapply before_old; [exact Ho2|exact Hn].
Qed.

End Conversion.

Section Outcomes.
Context `{Tools}.

(** X12: when pass 1 fails, the comparison raises the error of pass 1
    and pass 2 is not run: its two output files are not written. *)
Theorem failed_first_pass_stops_the_comparison (st : state) (file1 file2 : Path)
    (allowed_diff_lines : Z) (min_mapq compare_tag_columns : pyval)
    (bam1 bam2 : string) (e : exn) :
  fs st !! file1 = Some bam1 -> fs st !! file2 = Some bam2 ->
  old st file1 -> old st file2 ->
  invariant_subset_pass bam1 bam2 allowed_diff_lines = Raise e ->
  fst (assert_bam_files_equal file1 file2 allowed_diff_lines min_mapq
         compare_tag_columns st) = Raise e
  /\ fs (snd (assert_bam_files_equal file1 file2 allowed_diff_lines min_mapq
                compare_tag_columns st))
       !! TempPath (next_tmp st) "subset_reads_all_columns_file1"
     = fs st !! TempPath (next_tmp st) "subset_reads_all_columns_file1"
  /\ fs (snd (assert_bam_files_equal file1 file2 allowed_diff_lines min_mapq
                compare_tag_columns st))
       !! TempPath (next_tmp st) "subset_reads_all_columns_file2"
     = fs st !! TempPath (next_tmp st) "subset_reads_all_columns_file2".
Proof.
  intros H1 H2 Ho1 Ho2 P1.
  set (n := next_tmp st).
  unfold assert_bam_files_equal.
  rewrite (bind_run tempdir _ st n (mkState (fs st) (S n)) eq_refl).
  set (st1 := mkState (fs st) (S n)).
  set (pass1 :=
         bam_to_sam file1 (TempPath n "all_reads_subset_columns_file1") false PyNone NAME ;;;
         bam_to_sam file2 (TempPath n "all_reads_subset_columns_file2") false PyNone NAME ;;;
         assert_text_files_equal
           (TempPath n "all_reads_subset_columns_file1")
           (TempPath n "all_reads_subset_columns_file2") allowed_diff_lines
           (fun f1 f2 => diff_bam_columns f1 f2 INVARIATE_COLUMNS)).
  assert (Y : yields pass1 st1 (Raise e) (fun _ => True)).
  { rewrite <- P1. unfold invariant_subset_pass, invariant_subset_count.
    rewrite !rbind_assoc.
    replace (rbind (convert false PyNone NAME bam1) (fun x =>
             rbind (rbind (convert false PyNone NAME bam2) (fun sam2 =>
                    projected_count INVARIATE_COLUMNS x sam2))
               (within allowed_diff_lines)))
      with (rbind (convert false PyNone NAME bam1) (fun sam1 =>
            rbind (convert false PyNone NAME bam2) (fun sam2 =>
            rbind (projected_count INVARIATE_COLUMNS sam1 sam2)
              (within allowed_diff_lines)))).
    2:{ destruct (convert false PyNone NAME bam1); [|reflexivity]. cbn.
        by rewrite rbind_assoc. }
    apply pass_yields with
      (cmp := fun sam1 sam2 =>
         rbind (projected_count INVARIATE_COLUMNS sam1 sam2)
           (within allowed_diff_lines)); try done; [simpl; lia|].
    intros st' sam1 sam2 Hn' _ _ Hs1 Hs2.
    eapply yields_weaken;
      [apply projected_diff_yields; try done; try (by apply file_word_temp);
       unfold old; simpl; lia|done]. }
  destruct Y as (s & E & _).
  assert (Hpass1 : confined
            (fun p => p <> TempPath n "all_reads_subset_columns_file1"
                      /\ p <> TempPath n "all_reads_subset_columns_file2")
            (S n) (fun _ => True) pass1).
  { eapply confined_bind.
    { apply confined_bam_to_sam. intros [[? _] _]. done. }
    intros _ _. eapply confined_bind.
    { apply confined_bam_to_sam. intros [[_ ?] _]. done. }
    intros _ _. apply confined_assert_text_files_equal, confined_diff_bam_columns. }
  destruct (Hpass1 st1 (le_n _)) as (_ & Hf & _). rewrite E in Hf. simpl in Hf.
  rewrite (bind3_raise _ _ _ _ _ _ _ E). simpl.
  split; [reflexivity|].
  split; (rewrite Hf; [done|split; discriminate|simpl; lia]).
Qed.

(** *** The entry point *)

Variable _get_allowed_diff_lines : BamDataFile -> gmap string pyval -> Z.

Lemma py_max_raises a b e : py_max a b = Raise e -> exists msg, e = TypeError msg.
Proof.
  unfold py_max, py_gt.
  destruct b as [|[]|zb|sb], a as [|[]|za|sa]; cbn;
    try (destruct (_ <? _)); try (destruct (String.ltb _ _));
    try discriminate; intros [= <-]; eauto.
Qed.

(** X16: when the two requested values of [min_mapq] cannot be
    ordered, [_assert_contents_equal] raises the [TypeError] of [max]
    itself, not wrapped, before any file is read or written. *)
Theorem unorderable_min_mapq_raises_TypeError (st : state) (self : BamDataFile)
    (other_path : Path) (other_opts : gmap string pyval) (e : exn) :
  _get_min_mapq self other_opts = Raise e ->
  _assert_contents_equal _get_allowed_diff_lines self other_path other_opts st
    = (Raise e, st)
  /\ exists msg, e = TypeError msg.
Proof.
  intros Hq. destruct (py_max_raises _ _ _ Hq) as (msg & ->).
  split; [|eauto].
  unfold _assert_contents_equal, try_except_AssertionError, bind, lift.
  by rewrite Hq.
Qed.

(** X17: the failure of a tool is not reported as a difference of the
    files: [_assert_contents_equal] raises it unchanged. *)
Theorem tool_failure_is_not_wrapped (st : state) (self : BamDataFile)
    (other_path : Path) (other_opts : gmap string pyval) (bam1 bam2 : string)
    (min_mapq : pyval) (cmd : string) :
  fs st !! path self = Some bam1 -> fs st !! other_path = Some bam2 ->
  old st (path self) -> old st other_path ->
  _get_min_mapq self other_opts = Ok min_mapq ->
  two_pass bam1 bam2 (_get_allowed_diff_lines self other_opts) min_mapq
    (truthy (_get_compare_tag_columns self other_opts))
  = Raise (ToolInvocationError cmd) ->
  fst (_assert_contents_equal _get_allowed_diff_lines self other_path other_opts st)
  = Raise (ToolInvocationError cmd).
Proof.
  intros H1 H2 Ho1 Ho2 Hq Ht.
  rewrite (assert_contents_equal_outcome _get_allowed_diff_lines st self other_path
             other_opts bam1 bam2 min_mapq H1 H2 Ho1 Ho2 Hq).
  by rewrite Ht.
Qed.

(** X18: when neither side requests [min_mapq] the resolved value is 0,
    which [bam_to_sam] treats like no value: [pysam.view] gets no [-q], and
    the entry point compares the files without a quality filter. *)
Theorem default_min_mapq_filters_nothing (st : state) (self : BamDataFile)
    (other_path : Path) (other_opts : gmap string pyval) (bam1 bam2 : string) :
  compare_opts self !! "min_mapq" = None -> other_opts !! "min_mapq" = None ->
  fs st !! path self = Some bam1 -> fs st !! other_path = Some bam2 ->
  old st (path self) -> old st other_path ->
  _get_min_mapq self other_opts = Ok (PyInt 0)
  /\ view_opts true (PyInt 0) = ["-h"]
  /\ fst (_assert_contents_equal _get_allowed_diff_lines self other_path
            other_opts st)
     = surfaced self other_path
         (two_pass bam1 bam2 (_get_allowed_diff_lines self other_opts) PyNone
            (truthy (_get_compare_tag_columns self other_opts))).
Proof.
  intros Hs Ho H1 H2 Ho1 Ho2.
  assert (Hq : _get_min_mapq self other_opts = Ok (PyInt 0)).
  { unfold _get_min_mapq, dict_get. by rewrite Hs, Ho. }
  split; [exact Hq|]. split; [reflexivity|].
  exact (assert_contents_equal_outcome _get_allowed_diff_lines st self other_path
           other_opts bam1 bam2 (PyInt 0) H1 H2 Ho1 Ho2 Hq).
Qed.

End Outcomes.

(** X19: the resolution does not depend on the side: exchanging the
    two option sets gives the same [min_mapq] and the same truth value of
    [compare_tag_columns]. *)
Theorem option_resolution_is_symmetric (path1 path2 : Path)
    (opts1 opts2 : gmap string pyval) :
  int_or_absent opts1 "min_mapq" -> int_or_absent opts2 "min_mapq" ->
  _get_min_mapq {| path := path1; compare_opts := opts1 |} opts2
    = _get_min_mapq {| path := path2; compare_opts := opts2 |} opts1
  /\ truthy (_get_compare_tag_columns {| path := path1; compare_opts := opts1 |} opts2)
     = truthy (_get_compare_tag_columns {| path := path2; compare_opts := opts2 |} opts1).
Proof.
  intros I1 I2. split.
  - unfold _get_min_mapq. cbn [compare_opts].
    rewrite !dict_get_int by assumption. rewrite !py_max_int. by rewrite Z.max_comm.
  - unfold _get_compare_tag_columns, py_or. cbn [compare_opts].
    destruct (truthy (dict_get opts1 _ _)) eqn:E1,
             (truthy (dict_get opts2 _ _)) eqn:E2; congruence.
Qed.

(** ** The normalisation and the structure of the text *)

Lemma word_run_app_sep r d b :
  is_word d = false -> word_run (r +:+ String d b) = word_run r.
Proof.
  intros Hd. induction r as [|c r IH]; simpl; [by rewrite Hd|].
  destruct (is_word c); [by rewrite IH|reflexivity].
Qed.

Lemma strip_prefix_app_l p a r x :
  strip_prefix p a = Some r -> strip_prefix p (a +:+ x) = Some (r +:+ x).
Proof.
  revert a. induction p as [|c p IH]; intros a; simpl.
  - by intros [= ->].
  - destruct a as [|b a]; [discriminate|]. simpl.
    destruct (Ascii.eqb c b); [apply IH|discriminate].
Qed.

Lemma strip_prefix_app_sep p a d b r :
  free d p -> strip_prefix p (a +:+ String d b) = Some r ->
  exists r0, strip_prefix p a = Some r0 /\ r = r0 +:+ String d b.
Proof.
  revert a. induction p as [|c p IH]; intros a Hp; simpl.
  - intros [= <-]. eauto.
  - apply free_cons in Hp as [Hc Hp]. destruct a as [|x a]; simpl.
    + by rewrite Hc.
    + destruct (Ascii.eqb c x); [by apply IH|discriminate].
Qed.

Lemma separates_free d : separates d -> free d "UNSET-".
Proof.
  intros [Hw Hh].
  repeat (apply free_cons; split; [apply Ascii.eqb_neq; intros <-; by (vm_compute in Hw)|]).
  reflexivity.
Qed.

Lemma match_unset_app_sep a d b :
  separates d -> match_unset (a +:+ String d b) = match_unset a.
Proof.
  intros Hd. pose proof (separates_free d Hd) as Hfree. destruct Hd as [Hw _].
  unfold match_unset.
  destruct (strip_prefix "UNSET-" a) as [r0|] eqn:E0.
  - rewrite (strip_prefix_app_l _ _ _ _ E0). by rewrite word_run_app_sep.
  - destruct (strip_prefix "UNSET-" (a +:+ String d b)) as [r|] eqn:E; [|reflexivity].
    apply strip_prefix_app_sep in E as (r0 & E' & _); [congruence|exact Hfree].
Qed.

Lemma str_drop_app_le n a x :
  (n <= String.length a)%nat -> str_drop n (a +:+ x) = str_drop n a +:+ x.
Proof.
  revert a. induction n as [|n IH]; intros a Hn; [by destruct a|].
  destruct a as [|c a]; simpl in *; [lia|]. apply IH. lia.
Qed.


Lemma word_run_le r : (word_run r <= String.length r)%nat.
Proof. induction r as [|c r IH]; simpl; [lia|]. destruct (is_word c); simpl; lia. Qed.

Lemma re_sub_unset_sep_len n : forall a d b,
  (String.length a <= n)%nat -> separates d ->
  re_sub_unset (a +:+ String d b) = re_sub_unset a +:+ String d (re_sub_unset b).
Proof.
  induction n as [|n IH]; intros [|c r] d b Hlen Hd; simpl in Hlen; try lia.
  - change ("" +:+ String d b) with (String d b). rewrite re_sub_unset_cons.
    change (String d b) with ("" +:+ String d b) at 1.
    by rewrite (match_unset_app_sep "" d b Hd).
  - change ("" +:+ String d b) with (String d b). rewrite re_sub_unset_cons.
    change (String d b) with ("" +:+ String d b) at 1.
    by rewrite (match_unset_app_sep "" d b Hd).
  - change (String c r +:+ String d b) with (String c (r +:+ String d b)).
    rewrite !re_sub_unset_cons.
    change (String c (r +:+ String d b)) with (String c r +:+ String d b).
    rewrite (match_unset_app_sep (String c r) d b Hd).
    destruct (match_unset (String c r)) as [k|] eqn:E.
    + pose proof E as E'. apply match_unset_Some in E' as (r' & Hs & Hh & Hdrop).
      rewrite Hs in E. rewrite (match_unset_intro r' Hh) in E. injection E as <-.
      rewrite str_drop_app_le.
      2:{ rewrite Hs. pose proof (word_run_le r'). simpl. lia. }
      rewrite IH; [by rewrite append_assoc_s| |exact Hd].
      rewrite Hdrop. injection Hs as -> ->. simpl in Hlen.
      pose proof (str_drop_length (word_run r') r'). lia.
    + simpl. rewrite IH; [reflexivity|lia|exact Hd].
Qed.

Lemma free_str_drop d k s : free d s -> free d (str_drop k s).
Proof.
  revert s. induction k as [|k IH]; intros [|c s]; simpl; try done.
  intros Hs. apply free_cons in Hs as [_ Hs]. by apply IH.
Qed.

Lemma separates_free_placeholder d : separates d -> free d "UNSET-placeholder".
Proof.
  intros [Hw Hh].
  repeat (apply free_cons; split; [apply Ascii.eqb_neq; intros <-; by (vm_compute in Hw)|]).
  reflexivity.
Qed.

Lemma re_sub_unset_free_len n : forall d s,
  (String.length s <= n)%nat -> separates d -> free d s -> free d (re_sub_unset s).
Proof.
  induction n as [|n IH]; intros d [|c r] Hlen Hd Hs; simpl in Hlen; try lia;
    try reflexivity.
  rewrite re_sub_unset_cons.
  destruct (match_unset (String c r)) as [k|] eqn:E.
  - apply free_app; [by apply separates_free_placeholder|].
    pose proof E as E'. apply match_unset_Some in E' as (r' & Hs' & Hh & Hdrop).
    apply IH; [|exact Hd|by apply free_str_drop].
    rewrite Hdrop. injection Hs' as -> ->. simpl in Hlen.
    pose proof (str_drop_length (word_run r') r'). lia.
  - apply free_cons in Hs as [Hc Hs]. apply free_cons. split; [exact Hc|].
    apply IH; [lia|exact Hd|exact Hs].
Qed.

Lemma re_sub_unset_free d s : separates d -> free d s -> free d (re_sub_unset s).
Proof. apply (re_sub_unset_free_len (String.length s)). lia. Qed.

Lemma re_sub_unset_empty s : re_sub_unset s = "" -> s = "".
Proof.
  destruct s as [|c r]; [reflexivity|]. rewrite re_sub_unset_cons.
  destruct (match_unset (String c r)); discriminate.
Qed.

Lemma separates_tab : separates "009".
Proof. split; [reflexivity|discriminate]. Qed.

Lemma separates_nl : separates "010".
Proof. split; [reflexivity|discriminate]. Qed.

Lemma split_at d s :
  free d s \/ exists a b, s = a +:+ String d b /\ free d a.
Proof.
  induction s as [|c s IH]; [by left|].
  destruct (Ascii.eqb_spec c d) as [->|Hc].
  - right. exists "", s. by split.
  - destruct IH as [Hs|(a & b & -> & Ha)].
    + left. apply free_cons. split; [by apply Ascii.eqb_neq|exact Hs].
    + right. exists (String c a), b. split; [reflexivity|].
      apply free_cons. split; [by apply Ascii.eqb_neq|exact Ha].
Qed.

Lemma length_app_sep a d b :
  String.length (a +:+ String d b) = S (String.length a + String.length b).
Proof. induction a as [|c a IH]; simpl; [reflexivity|]. by rewrite IH. Qed.

Lemma fields_re_sub_unset_len n : forall s, (String.length s <= n)%nat ->
  fields (re_sub_unset s) = map re_sub_unset (fields s).
Proof.
  induction n as [|n IH]; intros s Hlen.
  - destruct s; [reflexivity|simpl in Hlen; lia].
  - destruct (split_at "009" s) as [Hs|(a & b & -> & Ha)].
    + rewrite (fields_free s Hs). simpl.
      apply fields_free. by apply re_sub_unset_free; [apply separates_tab|].
    + rewrite (re_sub_unset_sep_len _ a "009" b (le_n _) separates_tab).
      rewrite !fields_app_tab;
        [|exact Ha|by apply re_sub_unset_free; [apply separates_tab|]].
      simpl. f_equal. apply IH. rewrite length_app_sep in Hlen. lia.
Qed.

Lemma unix_lines_free s : free "010" s -> s <> "" -> unix_lines s = [s].
Proof.
  induction s as [|c s IH]; [done|]. intros Hs _.
  apply free_cons in Hs as [Hc Hs]. simpl. rewrite Hc.
  destruct s as [|c' s']; [reflexivity|]. rewrite (IH Hs); done.
Qed.

Lemma unix_lines_re_sub_unset_len n : forall s, (String.length s <= n)%nat ->
  unix_lines (re_sub_unset s) = map re_sub_unset (unix_lines s).
Proof.
  induction n as [|n IH]; intros s Hlen.
  - destruct s; [reflexivity|simpl in Hlen; lia].
  - destruct (split_at "010" s) as [Hs|(a & b & -> & Ha)].
    + destruct s as [|c r]; [reflexivity|].
      rewrite (unix_lines_free (String c r) Hs) by done. simpl map.
      apply unix_lines_free; [by apply re_sub_unset_free; [apply separates_nl|]|].
      intros E. by apply re_sub_unset_empty in E.
    + rewrite (re_sub_unset_sep_len _ a "010" b (le_n _) separates_nl).
      rewrite !unix_lines_line;
        [|exact Ha|by apply re_sub_unset_free; [apply separates_nl|]].
      simpl. f_equal. apply IH. rewrite length_app_sep in Hlen. lia.
Qed.

(** X6: the normalisation keeps the structure of the text: it acts on
    every line and on every TAB separated field on its own, and on the
    two sides of any character that is neither a word character nor a
    hyphen. *)
Theorem normalisation_keeps_lines_and_fields (sam : string) :
  unix_lines (re_sub_unset sam) = map re_sub_unset (unix_lines sam)
  /\ (forall line, fields (re_sub_unset line) = map re_sub_unset (fields line))
  /\ (forall a d b, is_word d = false -> d <> "-"%char ->
        re_sub_unset (a +:+ String d b)
        = re_sub_unset a +:+ String d (re_sub_unset b)).
Proof.
  split; [|split].
  - apply (unix_lines_re_sub_unset_len (String.length sam)). lia.
  - intros line. apply (fields_re_sub_unset_len (String.length line)). lia.
  - intros a d b Hw Hh. apply (re_sub_unset_sep_len (String.length a)); [lia|].
    by split.
Qed.

Lemma strip_prefix_none_match s :
  strip_prefix "UNSET-" s = None -> match_unset s = None.
Proof. unfold match_unset. by intros ->. Qed.

Lemma str_contains_cons sub c r :
  str_contains sub (String c r) =
  match strip_prefix sub (String c r) with
  | Some _ => true
  | None => str_contains sub r
  end.
Proof. reflexivity. Qed.

(** X7: a text in which [UNSET-] does not occur is left unchanged by
    the normalisation. *)
Theorem text_without_UNSET_is_unchanged (sam : string) :
  str_contains "UNSET-" sam = false -> re_sub_unset sam = sam.
Proof.
  induction sam as [|c r IH]; [reflexivity|].
  intros Hc. rewrite str_contains_cons in Hc.
  destruct (strip_prefix "UNSET-" (String c r)) as [x|] eqn:E; [discriminate|].
  rewrite re_sub_unset_cons, (strip_prefix_none_match _ E). by rewrite IH.
Qed.

(** ** Texts without tag columns *)

Lemma select_fields_all i fs :
  (1 <= i)%N -> (i + N.of_nat (List.length fs) <= 12)%N ->
  select_fields [(1%N, Some 11%N)] i fs = fs.
Proof.
  revert i. induction fs as [|f fs IH]; intros i Hi Hlen; simpl; [reflexivity|].
  cbn [List.length] in Hlen. unfold in_ranges. cbn [existsb fst snd].
  replace (N.leb 1 i) with true by (symmetry; apply N.leb_le; lia).
  replace (N.leb i 11) with true by (symmetry; apply N.leb_le; lia).
  cbn. f_equal. apply IH; lia.
Qed.

Lemma cut_line_all line :
  (List.length (fields line) <= 11)%nat -> cut_line [(1%N, Some 11%N)] line = line.
Proof.
  intros Hlen. unfold cut_line. pose proof (join_fields line) as J.
  destruct (fields line) as [|f [|g fs]] eqn:F; [by apply fields_nonempty in F|done|].
  rewrite select_fields_all; [exact J|lia|]. simpl in *. lia.
Qed.

Lemma cut_f_all text :
  without_tags text = true -> cut_f ALL_COLUMNS text = Some (unlines (unix_lines text)).
Proof.
  intros Hw. unfold cut_f.
  replace (parse_ranges (split_on "," ALL_COLUMNS)) with (Some [(1%N, Some 11%N)])
    by (by vm_compute).
  f_equal. f_equal. unfold without_tags in Hw. rewrite forallb_forall in Hw.
  rewrite <- (map_id (unix_lines text)) at 2. apply map_ext_in.
  intros l Hl. apply cut_line_all. apply Nat.leb_le. by apply Hw.
Qed.

Lemma diff_lines_unlines text1 text2 :
  diff_lines (unlines (unix_lines text1)) (unlines (unix_lines text2))
  = diff_lines text1 text2.
Proof.
  unfold diff_lines. by rewrite !unix_lines_unlines by apply unix_lines_no_nl.
Qed.

Section Policy.
Context `{Tools}.

(** X14: when no line of the two outputs of pass 2 has more than eleven
    fields, the outcome of the comparison does not depend on
    [compare_tag_columns]. *)
Theorem tag_flag_is_irrelevant_without_tags (st : state) (file1 file2 : Path)
    (allowed_diff_lines : Z) (min_mapq flag1 flag2 : pyval)
    (bam1 bam2 full1 full2 : string) :
  fs st !! file1 = Some bam1 -> fs st !! file2 = Some bam2 ->
  old st file1 -> old st file2 ->
  convert true min_mapq COORDINATE bam1 = Ok full1 ->
  convert true min_mapq COORDINATE bam2 = Ok full2 ->
  without_tags full1 = true -> without_tags full2 = true ->
  fst (assert_bam_files_equal file1 file2 allowed_diff_lines min_mapq flag1 st)
  = fst (assert_bam_files_equal file1 file2 allowed_diff_lines min_mapq flag2 st).
Proof.
  intros H1 H2 Ho1 Ho2 C3 C4 W1 W2.
  rewrite !(assert_bam_files_equal_two_pass st _ _ _ _ _ bam1 bam2 H1 H2 Ho1 Ho2).
  assert (E : forall tags, full_columns_count bam1 bam2 min_mapq tags
                           = Ok (diff_lines full1 full2)).
  { intros tags. unfold full_columns_count. rewrite C3, C4. cbn.
    destruct tags; [reflexivity|].
    unfold projected_count, project_columns. rewrite !cut_f_all by assumption.
    cbn. by rewrite diff_lines_unlines. }
  unfold two_pass, full_columns_pass. by rewrite !E.
Qed.





End Policy.

(** ** [setup.py] *)

Import Setup.

Lemma dict_lookup_set_eq {V} (d : list (string * V)) key v :
  dict_lookup (dict_set d key v) key = Some v.
Proof.
  induction d as [|[k w] d IH]; simpl.
  - by rewrite String.eqb_refl.
  - destruct (String.eqb k key) eqn:E; simpl; by rewrite E.
Qed.

Lemma dict_lookup_set_ne {V} (d : list (string * V)) key v name :
  key <> name -> dict_lookup (dict_set d key v) name = dict_lookup d name.
Proof.
  intros Hne. induction d as [|[k w] d IH]; simpl.
  - by rewrite (proj2 (String.eqb_neq key name) Hne).
  - destruct (String.eqb_spec k key) as [->|Hk]; simpl.
    + by rewrite (proj2 (String.eqb_neq key name) Hne).
    + by rewrite IH.
Qed.

Lemma dict_lookup_In {V} (d : list (string * V)) name v :
  dict_lookup d name = Some v -> In (name, v) d.
Proof.
  induction d as [|[k w] d IH]; simpl; [discriminate|].
  destruct (String.eqb_spec k name) as [->|_]; [intros [= ->]; by left|auto].
Qed.

(** X20: after [setup.py] has added the extra [all], it holds the
    libraries of every extra, in the order of the [dict], and nothing
    else. *)
Theorem all_extra_holds_every_library (base : list (string * list string)) :
  dict_lookup (add_all base) "all" = Some (all_values base)
  /\ (forall name libs lib,
        dict_lookup (add_all base) name = Some libs -> In lib libs ->
        In lib (all_values base))
  /\ (forall lib, In lib (all_values base) ->
        exists name libs, In (name, libs) base /\ In lib libs)
  /\ dict_lookup extras_require "all" = Some ["pysam"; "miniwdl"; "tqdm"].
Proof.
  split; [apply dict_lookup_set_eq|]. split; [|split; [|reflexivity]].
  - intros name libs lib Hl Hin. unfold add_all in Hl.
    destruct (String.eqb_spec "all" name) as [<-|Hne].
    + rewrite dict_lookup_set_eq in Hl. by injection Hl as <-.
    + rewrite dict_lookup_set_ne in Hl by exact Hne.
      apply dict_lookup_In in Hl. unfold all_values. apply in_flat_map.
      by exists (name, libs).
  - intros lib Hin. unfold all_values in Hin. apply in_flat_map in Hin as ([name libs] & Hd & Hl).
    eauto.
Qed.

(** ** Runs of the further properties *)

Import Examples2.



Lemma bam_to_sam_reader_failure_witness :
  fs files !! UserPath "missing.bam" = None
  /\ bam_to_sam (H := Reference.tools) (UserPath "missing.bam") (UserPath "out.sam")
       true PyNone COORDINATE files
     = (Raise (ToolInvocationError "pysam.view"), files).
Proof.
  split; [by vm_compute|].
  apply (bam_to_sam_reader_failure (H := Reference.tools) files
           (UserPath "missing.bam") (UserPath "out.sam") true PyNone COORDINATE).
  by vm_compute.
Defined.

Lemma bam_to_sam_sort_failure_witness :
  fst (bam_to_sam (H := broken_sort) (UserPath "a.bam") (UserPath "old.sam")
         true PyNone COORDINATE files) = Raise (ToolInvocationError "sort")
  /\ fs (snd (bam_to_sam (H := broken_sort) (UserPath "a.bam") (UserPath "old.sam")
                true PyNone COORDINATE files)) !! UserPath "old.sam"
     = fs files !! UserPath "old.sam".
Proof.
  refine (let W := bam_to_sam_sort_failure (H := broken_sort) files
                     (UserPath "a.bam") (UserPath "old.sam") true PyNone COORDINATE
                     Examples.bam_a Examples.bam_a _ _ _ _ _ _ in
          conj (proj1 W) (proj1 (proj2 W))); try exact I; by vm_compute.
Defined.

Lemma text_without_UNSET_is_unchanged_witness :
  str_contains "UNSET-" Examples.bam_a = false
  /\ re_sub_unset Examples.bam_a = Examples.bam_a.
Proof.
  split; [by vm_compute|].
  apply (text_without_UNSET_is_unchanged Examples.bam_a). by vm_compute.
Defined.

Lemma diff_bam_columns_counts_projections_witness :
  fst (diff_bam_columns (H := Reference.tools) (UserPath "a.bam") (UserPath "b.bam")
         "4" files) = Ok 1
  /\ next_tmp (snd (diff_bam_columns (H := Reference.tools) (UserPath "a.bam")
                      (UserPath "b.bam") "4" files)) = 4%nat.
Proof.
  refine (let W := diff_bam_columns_counts_projections (H := Reference.tools) files
                     (UserPath "a.bam") (UserPath "b.bam") "4"
                     Examples.bam_a Examples.bam_b
                     (default "" (cut_f "4" Examples.bam_a))
                     (default "" (cut_f "4" Examples.bam_b)) _ _ _ _ _ _ _ _ in
          conj (proj1 W) (proj1 (proj2 (proj2 (proj2 W))))); try exact I; by vm_compute.
Defined.

(** The field number 2^64 does not fit. *)
Lemma diff_bam_columns_rejected_column_list_witness :
  cut_f "1,18446744073709551614" Examples.bam_a <> None
  /\ fst (diff_bam_columns (H := Reference.tools) (UserPath "a.bam") (UserPath "b.bam")
            "1,18446744073709551616" files) = Raise (ToolInvocationError "cut").
Proof.
  split; [by vm_compute|].
  refine (proj1 (diff_bam_columns_rejected_column_list (H := Reference.tools) files
                   (UserPath "a.bam") (UserPath "b.bam") "1,18446744073709551616"
                   Examples.bam_a _ _ _ _)); by vm_compute.
Defined.

Lemma comparison_keeps_existing_files_witness :
  fs (snd (assert_bam_files_equal (H := Reference.tools) (UserPath "a.bam")
             (UserPath "b.bam") 0 (PyInt 10) (PyBool true) files)) !! UserPath "a.bam"
  = fs files !! UserPath "a.bam".
Proof.
  apply (comparison_keeps_existing_files (H := Reference.tools) files
           (UserPath "a.bam") (UserPath "b.bam") 0 (PyInt 10) (PyBool true)
           (UserPath "a.bam")).
  exact I.
Defined.

Lemma comparison_is_repeatable_witness :
  fst (assert_bam_files_equal (H := Reference.tools) (UserPath "a.bam")
         (UserPath "b.bam") 0 (PyInt 10) (PyBool true)
         (snd (assert_bam_files_equal (H := Reference.tools) (UserPath "a.bam")
                 (UserPath "b.bam") 0 (PyInt 10) (PyBool true) files)))
  = fst (assert_bam_files_equal (H := Reference.tools) (UserPath "a.bam")
           (UserPath "b.bam") 0 (PyInt 10) (PyBool true) files).
Proof.
  apply (comparison_is_repeatable (H := Reference.tools) files (UserPath "a.bam")
           (UserPath "b.bam") 0 (PyInt 10) (PyBool true) Examples.bam_a Examples.bam_b);
    try exact I; by vm_compute.
Defined.

(** The comparison fails in pass 1 and the outputs of pass 1 are there
    to be looked at. *)
Lemma converted_files_are_kept_witness :
  fst (assert_bam_files_equal (H := Reference.tools) (UserPath "a.bam")
         (UserPath "b.bam") 0 (PyInt 10) (PyBool true) files)
    = Raise (AssertionError "1 lines were different" None)
  /\ is_Some (fs (snd (assert_bam_files_equal (H := Reference.tools) (UserPath "a.bam")
                         (UserPath "b.bam") 0 (PyInt 10) (PyBool true) files))
                !! TempPath 3 "all_reads_subset_columns_file1").
Proof.
  split; [by vm_compute|].
  refine (let W := converted_files_are_kept (H := Reference.tools) files
                     (UserPath "a.bam") (UserPath "b.bam") 0 (PyInt 10) (PyBool true)
                     Examples.bam_a Examples.bam_b
                     (match convert (H := Reference.tools) false PyNone NAME Examples.bam_a
                      with Ok t => t | Raise _ => "" end)
                     (match convert (H := Reference.tools) false PyNone NAME Examples.bam_b
                      with Ok t => t | Raise _ => "" end)
                     _ _ _ _ _ _ in
          ex_intro _ _ (proj1 W)); try exact I; by vm_compute.
Defined.

Lemma failed_first_pass_stops_the_comparison_witness :
  invariant_subset_pass (H := Reference.tools) Examples.bam_a Examples.bam_b 0
    = Raise (AssertionError "1 lines were different" None)
  /\ fs (snd (assert_bam_files_equal (H := Reference.tools) (UserPath "a.bam")
                (UserPath "b.bam") 0 (PyInt 10) (PyBool true) files))
       !! TempPath (next_tmp files) "subset_reads_all_columns_file1" = None.
Proof.
  split; [by vm_compute|].
  rewrite (proj1 (proj2 (failed_first_pass_stops_the_comparison
                           (H := Reference.tools) files
                           (UserPath "a.bam") (UserPath "b.bam") 0 (PyInt 10)
                           (PyBool true) Examples.bam_a Examples.bam_b
                           (AssertionError "1 lines were different" None)
                           ltac:(by vm_compute) ltac:(by vm_compute)
                           I I ltac:(by vm_compute)))).
  by vm_compute.
Defined.

Lemma tag_flag_is_irrelevant_without_tags_witness :
  without_tags bam_plain1 = true
  /\ fst (assert_bam_files_equal (H := Reference.tools) (UserPath "plain1.bam")
            (UserPath "plain2.bam") 0 (PyInt 0) (PyBool true) files)
     = fst (assert_bam_files_equal (H := Reference.tools) (UserPath "plain1.bam")
              (UserPath "plain2.bam") 0 (PyInt 0) PyNone files).
Proof.
  split; [by vm_compute|].
  apply (tag_flag_is_irrelevant_without_tags (H := Reference.tools) files
           (UserPath "plain1.bam") (UserPath "plain2.bam") 0 (PyInt 0)
           (PyBool true) PyNone bam_plain1 bam_plain2
           (rstrip bam_plain1) (rstrip bam_plain2));
    try exact I; by vm_compute.
Defined.

Lemma unorderable_min_mapq_raises_TypeError_witness :
  _assert_contents_equal (H := Reference.tools) Examples.max_allowed_diff_lines
    side_str (UserPath "b.bam") ∅ files
  = (Raise (TypeError "'>' not supported"), files).
Proof.
  refine (proj1 (unorderable_min_mapq_raises_TypeError (H := Reference.tools)
                   Examples.max_allowed_diff_lines files side_str (UserPath "b.bam") ∅
                   (TypeError "'>' not supported") _)).
  by vm_compute.
Defined.

Lemma tool_failure_is_not_wrapped_witness :
  fst (_assert_contents_equal (H := broken_sort) Examples.max_allowed_diff_lines
         side_plain (UserPath "b.bam") ∅ files)
  = Raise (ToolInvocationError "sort").
Proof.
  apply (tool_failure_is_not_wrapped (H := broken_sort)
           Examples.max_allowed_diff_lines files side_plain (UserPath "b.bam") ∅
           Examples.bam_a Examples.bam_b (PyInt 0) "sort");
    try exact I; by vm_compute.
Defined.

Lemma default_min_mapq_filters_nothing_witness :
  _get_min_mapq side_plain ∅ = Ok (PyInt 0)
  /\ view_opts true (PyInt 0) = ["-h"].
Proof.
  refine (let W := default_min_mapq_filters_nothing (H := Reference.tools)
                     Examples.max_allowed_diff_lines files side_plain
                     (UserPath "b.bam") ∅ Examples.bam_a Examples.bam_b
                     _ _ _ _ _ _ in
          conj (proj1 W) (proj1 (proj2 W))); try exact I; by vm_compute.
Defined.

Lemma option_resolution_is_symmetric_witness :
  _get_min_mapq {| path := UserPath "a.bam";
                   compare_opts := {[ "min_mapq" := PyInt 10 ]} |}
                {[ "min_mapq" := PyInt 20 ]}
  = _get_min_mapq {| path := UserPath "b.bam";
                     compare_opts := {[ "min_mapq" := PyInt 20 ]} |}
                  {[ "min_mapq" := PyInt 10 ]}.
Proof.
  refine (proj1 (option_resolution_is_symmetric (UserPath "a.bam") (UserPath "b.bam")
                   {[ "min_mapq" := PyInt 10 ]} {[ "min_mapq" := PyInt 20 ]} _ _));
    vm_compute; exact I.
Defined.
